(** * HistoryView::SetupSwipeHandler — the swipe gesture recogniser

    A shallow embedding of [Telegram/SourceFiles/history/history_view_swipe.cpp].

    The C++ function [SetupSwipeHandler] allocates one [State] per widget and
    installs closures over it: [updateRatio], [setOrientation], [processEnd],
    [animationReachCallback], [updateWith] and the event [filter].  Each closure
    is embedded below as a computation in a small state-and-trace monad: the
    state is the C++ [State] struct, the trace is the ordered list of calls the
    closure makes to its collaborators (the [update] callback, the scroll area,
    the animations, [Ui::PostponeCall], the haptic engine and the
    [generateFinishByTop] resolver).

    [float64] and [qreal] values are IEEE 754 binary64 numbers: they are
    embedded as Rocq's primitive floats, so that rounding and comparisons with
    NaN behave as they do in the compiled code.  [int] and [int64] values
    (pixel coordinates, message ids, durations) are embedded in [Z]: the code
    only compares them and subtracts two coordinates, far from overflow. *)

From Stdlib Require Import ZArith List Bool Lia.
From Stdlib Require Import Floats.
Import ListNotations.

Set Warnings "-inexact-float".

(** ** binary64 comparisons *)

(** [float64] (and Qt's [qreal]) is the C++ [double]. *)
Abbreviation float64 := float.

Module Float64.

(** [a >= b] and [a > b] of C++, written with the primitive [<=?] and [<?]. *)
Definition ge (a b : float64) : bool := (b <=? a)%float.
Definition gt (a b : float64) : bool := (b <? a)%float.
Definition lt (a b : float64) : bool := (a <? b)%float.
Definition le (a b : float64) : bool := (a <=? b)%float.

(** [std::clamp(v, lo, hi)]:  [(v < lo) ? lo : (hi < v) ? hi : v]. *)
Definition clamp (v lo hi : float64) : float64 :=
  if lt v lo then lo else if lt hi v then hi else v.

(** [std::abs] on a double. *)
Definition fabs (v : float64) : float64 := abs v.

Arguments ge : simpl never.
Arguments gt : simpl never.
Arguments lt : simpl never.
Arguments le : simpl never.
Arguments clamp : simpl never.
Arguments fabs : simpl never.

End Float64.

Import Float64.

(** ** Data model *)

(** [Qt::Orientation]; an unset [std::optional<Qt::Orientation>] is [None]. *)
Inductive Orientation : Type := Horizontal | Vertical.

Definition isHorizontal (o : option Orientation) : bool :=
  match o with Some Horizontal => true | _ => false end.

Definition isSet {A : Type} (o : option A) : bool :=
  match o with Some _ => true | None => false end.

(** [std::optional<T>::value_or]. *)
Definition value_or {A : Type} (o : option A) (d : A) : A :=
  match o with Some v => v | None => d end.

(** [QPointF]: a pair of [qreal] (binary64) coordinates. *)
Module QPointF.
Record t : Type := make { x : float64; y : float64 }.
(** [QPointF()] *)
Definition null : t := make 0%float 0%float.
(** [operator-] on two points. *)
Definition sub (a b : t) : t := make (x a - x b)%float (y a - y b)%float.
End QPointF.

(** [SwipeHandlerFinishData] (declared in history_view_swipe_data.h): the
    completion action, a possibly empty [Fn<void()>], and the message id.  The
    type [Action] of non-empty closures is left abstract. *)
Module SwipeHandlerFinishData.
Record t (Action : Type) : Type := make { callback : option Action; msgBareId : Z }.
Arguments make {Action} _ _.
Arguments callback {Action} _.
Arguments msgBareId {Action} _.
End SwipeHandlerFinishData.

(** [ChatPaintGestureHorizontalData] (declared in ui/chat/chat_style.h): the
    argument of the caller's [update] function. *)
Module ChatPaintGestureHorizontalData.
Record t : Type := make {
  ratio : float64;
  reachRatio : float64;
  translation : Z;
  msgBareId : Z;
  cursorTop : Z;
}.
End ChatPaintGestureHorizontalData.

(** [Ui::Animations::Simple] (lib_ui), as far as the recogniser uses it:
    [start], [stop] and [value(final)]. *)
Module Simple.
(** Modelled from the spec: [Ui::Animations::Simple] is the "animate a value
    from A to B over duration D, calling back each tick" capability.  A handle
    is either idle or running; a running handle knows its start value, end
    value, duration and current value. *)
Record running : Type := make {
  from : float64;
  to : float64;
  duration : Z;
  current : float64;
}.
Definition t : Type := option running.
Definition idle : t := None.
Definition stop (a : t) : t := None.
Definition start (from to : float64) (duration : Z) (a : t) : t :=
  Some (make from to duration from).
(** [value(final)]: the current value while animating, [final] otherwise. *)
Definition value (a : t) (final : float64) : float64 :=
  match a with Some r => current r | None => final end.
End Simple.

(** The [State] struct local to [SetupSwipeHandler] (the event filter object
    and the lifetime are left out: they carry no gesture data). *)
Module State.
Record t (Action : Type) : Type := make {
  animationReach : Simple.t;
  animationEnd : Simple.t;
  finishByTopData : SwipeHandlerFinishData.t Action;
  orientation : option Orientation;
  startAt : QPointF.t;
  delta : QPointF.t;
  cursorTop : Z;
  started : bool;
  reached : bool;
  touch : bool;
}.
Arguments make {Action} _ _ _ _ _ _ _ _ _ _.
Arguments animationReach {Action} _.
Arguments animationEnd {Action} _.
Arguments finishByTopData {Action} _.
Arguments orientation {Action} _.
Arguments startAt {Action} _.
Arguments delta {Action} _.
Arguments cursorTop {Action} _.
Arguments started {Action} _.
Arguments reached {Action} _.
Arguments touch {Action} _.

(** The default member initialisers of the struct. *)
Definition initial {Action : Type} : t Action :=
  make Simple.idle Simple.idle (SwipeHandlerFinishData.make None 0%Z) None
       QPointF.null QPointF.null 0%Z false false false.

Section Setters.
Context {Action : Type}.
Definition set_animationReach (v : Simple.t) (s : t Action) : t Action :=
  make v (animationEnd s) (finishByTopData s) (orientation s) (startAt s)
       (delta s) (cursorTop s) (started s) (reached s) (touch s).
Definition set_animationEnd (v : Simple.t) (s : t Action) : t Action :=
  make (animationReach s) v (finishByTopData s) (orientation s) (startAt s)
       (delta s) (cursorTop s) (started s) (reached s) (touch s).
Definition set_finishByTopData (v : SwipeHandlerFinishData.t Action)
  (s : t Action) : t Action :=
  make (animationReach s) (animationEnd s) v (orientation s) (startAt s)
       (delta s) (cursorTop s) (started s) (reached s) (touch s).
Definition set_orientation (v : option Orientation) (s : t Action) : t Action :=
  make (animationReach s) (animationEnd s) (finishByTopData s) v (startAt s)
       (delta s) (cursorTop s) (started s) (reached s) (touch s).
Definition set_startAt (v : QPointF.t) (s : t Action) : t Action :=
  make (animationReach s) (animationEnd s) (finishByTopData s) (orientation s) v
       (delta s) (cursorTop s) (started s) (reached s) (touch s).
Definition set_delta (v : QPointF.t) (s : t Action) : t Action :=
  make (animationReach s) (animationEnd s) (finishByTopData s) (orientation s)
       (startAt s) v (cursorTop s) (started s) (reached s) (touch s).
Definition set_cursorTop (v : Z) (s : t Action) : t Action :=
  make (animationReach s) (animationEnd s) (finishByTopData s) (orientation s)
       (startAt s) (delta s) v (started s) (reached s) (touch s).
Definition set_started (v : bool) (s : t Action) : t Action :=
  make (animationReach s) (animationEnd s) (finishByTopData s) (orientation s)
       (startAt s) (delta s) (cursorTop s) v (reached s) (touch s).
Definition set_reached (v : bool) (s : t Action) : t Action :=
  make (animationReach s) (animationEnd s) (finishByTopData s) (orientation s)
       (startAt s) (delta s) (cursorTop s) (started s) v (touch s).
Definition set_touch (v : bool) (s : t Action) : t Action :=
  make (animationReach s) (animationEnd s) (finishByTopData s) (orientation s)
       (startAt s) (delta s) (cursorTop s) (started s) (reached s) v.
End Setters.
End State.

(** The [UpdateArgs] struct local to [SetupSwipeHandler]. *)
Module UpdateArgs.
Record t : Type := make { position : QPointF.t; delta : QPointF.t; touch : bool }.
End UpdateArgs.

(** ** Calls to collaborators

    Every call a closure makes to something outside the [State] struct, in the
    order it is made.  The two animation handles live in the state, but their
    [start] and [stop] reach the animation manager, so they are recorded too. *)
Module Call.
Inductive t (Action : Type) : Type :=
| update (data : ChatPaintGestureHorizontalData.t)
    (* the caller's [update] function *)
| setAcceptTouchEvents (on : bool)
    (* scroll->viewport()->setAttribute(Qt::WA_AcceptTouchEvents, on) *)
| disableScroll (dis : bool)
    (* scroll->disableScroll(dis) *)
| PostponeCall (callback : Action)
    (* Ui::PostponeCall(widget, callback): run later, from the event loop *)
| animationReach_stop
| animationReach_start (from to : float64) (duration : Z)
| animationEnd_stop
| animationEnd_start (from to : float64) (duration : Z)
| Haptic
    (* base::Platform::Haptic() *)
| generateFinishByTop_called (top : Z).
    (* the caller's [generateFinishByTop] function *)
Arguments update {Action} _.
Arguments setAcceptTouchEvents {Action} _.
Arguments disableScroll {Action} _.
Arguments PostponeCall {Action} _.
Arguments animationReach_stop {Action}.
Arguments animationReach_start {Action} _ _ _.
Arguments animationEnd_stop {Action}.
Arguments animationEnd_start {Action} _ _ _.
Arguments Haptic {Action}.
Arguments generateFinishByTop_called {Action} _.
End Call.

(** ** Platform events, as far as the filter reads them *)

(** [Qt::ScrollPhase] *)
Inductive ScrollPhase : Type :=
  NoScrollPhase | ScrollBegin | ScrollUpdate | ScrollEnd | ScrollMomentum.

Definition ScrollPhase_eqb (a b : ScrollPhase) : bool :=
  match a, b with
  | NoScrollPhase, NoScrollPhase | ScrollBegin, ScrollBegin
  | ScrollUpdate, ScrollUpdate | ScrollEnd, ScrollEnd
  | ScrollMomentum, ScrollMomentum => true
  | _, _ => false
  end.

(** The four touch cases of [QEvent::Type]. *)
Inductive TouchType : Type := TouchBegin | TouchUpdate | TouchEnd | TouchCancel.

Definition TouchType_eqb (a b : TouchType) : bool :=
  match a, b with
  | TouchBegin, TouchBegin | TouchUpdate, TouchUpdate
  | TouchEnd, TouchEnd | TouchCancel, TouchCancel => true
  | _, _ => false
  end.

(** [base::TouchDevice] (the type of a [QTouchEvent]'s device). *)
Inductive TouchDevice : Type := TouchScreen | TouchPad.

(** [Qt::TouchPointReleased], one flag of [Qt::TouchPointStates]. *)
Definition TouchPointReleased : Z := 8.

(** [QTouchEvent::TouchPoint]: its position and its state flags. *)
Module TouchPoint.
Record t : Type := make { pos : QPointF.t; state : Z }.
End TouchPoint.

(** [QEvent], by [type()], with the data the filter reads from each subclass:
    - [MouseMove]: [m->pos().y()];
    - touch events: the type, [t->device()] (a null device is [None]) and
      [t->touchPoints()];
    - [Wheel]: [w->phase()], [w->buttons()] (mouse button flags) and
      [Ui::ScrollDelta(w)], the platform's scroll delta of the event
      (ui/ui_utility.h);
    - every other event type is [OtherEvent]. *)
Inductive QEvent : Type :=
| Leave
| MouseMove (pos_y : Z)
| Touch (type : TouchType) (device : option TouchDevice)
    (touchPoints : list TouchPoint.t)
| Wheel (phase : ScrollPhase) (buttons : Z) (ScrollDelta : QPointF.t)
| OtherEvent.

(** [base::EventFilterResult] *)
Inductive EventFilterResult : Type := Continue | Cancel.

(** [touches.at(index)] and [touches[index]]; the filter only evaluates them at
    an index below [touches.size()] (lemma [update_needs_touch] below), the
    value returned here beyond the end is never used. *)
Definition at_ (touches : list TouchPoint.t) (index : nat) : TouchPoint.t :=
  nth index touches (TouchPoint.make QPointF.null 0).

(** [int(v)] on a double: truncation toward zero.  (Outside the range of [int],
    and on NaN, the C++ conversion is undefined; here the result is the exact
    integer, and 0 on NaN and infinities.) *)
Definition int_of_float64 (v : float64) : Z :=
  match Prim2SF v with
  | S754_finite s m e =>
      let a := if (0 <=? e)%Z then (Z.pos m * 2 ^ e)%Z
               else (Z.pos m / 2 ^ (- e))%Z in
      if s then (- a)%Z else a
  | _ => 0%Z
  end.

(** ** The state-and-trace monad *)

Section Monad.
Context {Action : Type}.

Definition M (A : Type) : Type :=
  State.t Action -> A * State.t Action * list (Call.t Action).

Definition ret {A : Type} (a : A) : M A := fun s => (a, s, []).

Definition bind {A B : Type} (m : M A) (k : A -> M B) : M B :=
  fun s =>
    match m s with
    | (a, s1, c1) =>
        match k a s1 with
        | (b, s2, c2) => (b, s2, c1 ++ c2)
        end
    end.

Definition get : M (State.t Action) := fun s => (s, s, []).
Definition gets {A : Type} (f : State.t Action -> A) : M A :=
  fun s => (f s, s, []).
Definition modify (f : State.t Action -> State.t Action) : M unit :=
  fun s => (tt, f s, []).
Definition call (c : Call.t Action) : M unit := fun s => (tt, s, [c]).

(** The state a computation ends in and the calls it made. *)
Definition final {A : Type} (m : M A) (s : State.t Action) : State.t Action :=
  snd (fst (m s)).
Definition calls {A : Type} (m : M A) (s : State.t Action) : list (Call.t Action) :=
  snd (m s).
Definition result {A : Type} (m : M A) (s : State.t Action) : A :=
  fst (fst (m s)).
End Monad.

Notation "x <- m ;; k" := (bind m (fun x => k))
  (at level 61, m at next level, right associativity).
Notation "m ;; k" := (bind m (fun _ => k))
  (at level 61, right associativity).

(** Case analysis on the condition of a conditional in the goal. *)
Ltac break_if :=
  match goal with
  | |- context [if ?b then _ else _] => destruct b eqn:?
  end.

(** ** A concrete setting, for running the closures

    The scenario of the specification: no display scaling (so the threshold is
    50), a resolver that yields message 7 with an action for a gesture starting
    at cursor top 10, on a platform that is not macOS. *)
Module Scenario.

(** Modelled from the spec: [base::SafeRound] (lib_base) "rounds"; it is
    [std::round], to the nearest whole number, halfway cases away from zero. *)
Definition std_round (v : float64) : float64 :=
  match Prim2SF v with
  | S754_finite s m e =>
      if (0 <=? e)%Z then v
      else
        let d := (2 ^ (- e))%Z in
        let q := (Z.pos m / d)%Z in
        let n := if (d <=? 2 * (Z.pos m mod d))%Z then (q + 1)%Z else q in
        let r := of_uint63 (Uint63.of_Z n) in
        if s then (- r)%float else r
  | _ => v
  end.

(** Two actions a resolver may hand out. *)
Inductive Action : Type := A | B.

(** A resolver: the rows above [y = 100] belong to message 7, which has the
    action [A]; below them there is nothing to swipe. *)
Definition resolver (top : Z) : SwipeHandlerFinishData.t Action :=
  if (top <? 100)%Z then SwipeHandlerFinishData.make (Some A) 7
  else SwipeHandlerFinishData.make None 0.

Definition noScale (v : float64) : float64 := v.
Definition slideWrapDuration : Z := 200.
Definition startDragDistance : Z := 10.

Definition sample (dx dy : float64) (touch : bool) : UpdateArgs.t :=
  UpdateArgs.make QPointF.null (QPointF.make dx dy) touch.

(** A wheel gesture being tracked: started at cursor top 10, orientation [o],
    flag [reached], live displacement [(dx, dy)], with the action [A] resolved
    at its start and no animation running. *)
Definition tracking (o : option Orientation) (reached : bool) (dx dy : float64)
  : State.t Action :=
  State.make Simple.idle Simple.idle (resolver 10) o QPointF.null
             (QPointF.make dx dy) 10 true reached false.

(** A finger put down on a touchscreen at [x = 100], then moved to [x = 90]. *)
Definition fingerDown : QEvent :=
  Touch TouchBegin (Some TouchScreen)
        [TouchPoint.make (QPointF.make 100 0) 1].
Definition fingerMoved : QEvent :=
  Touch TouchUpdate (Some TouchScreen)
        [TouchPoint.make (QPointF.make 90 0) 2].
(** Wheel events of a scroll that begins and goes on, no button held. *)
Definition wheelBegan : QEvent :=
  Wheel ScrollBegin 0 (QPointF.make 0 0).
Definition wheelBy (dx dy : float64) : QEvent :=
  Wheel ScrollUpdate 0 (QPointF.make dx dy).
Definition wheelScrolled : QEvent := wheelBy 0 (-3).
(** A wheel event of the momentum phase. *)
Definition wheelMomentum : QEvent :=
  Wheel ScrollMomentum 0 (QPointF.make (-4) 0).

End Scenario.

(** ** The closures of [SetupSwipeHandler] *)

Section SetupSwipeHandler.
Context {Action : Type}.

(** The caller's resolver, [Fn<SwipeHandlerFinishData(int)>]. *)
Variable generateFinishByTop : Z -> SwipeHandlerFinishData.t Action.
(** [style::ConvertFloatScale] (lib_ui): scales a length by the display density. *)
Variable ConvertFloatScale : float64 -> float64.
(** [st::slideWrapDuration], a style constant. *)
Variable slideWrapDuration : Z.
(** [base::SafeRound] (lib_base): rounds a double to a whole number. *)
Variable SafeRound : float64 -> float64.
(** [Platform::IsMac()] *)
Variable IsMac : bool.
(** [QApplication::startDragDistance()] *)
Variable startDragDistance : Z.

Definition kThresholdWidth : float64 := 50.
Definition threshold : float64 := ConvertFloatScale kThresholdWidth.
Definition kOrientationThreshold : float64 := 1.
Definition kResetReachedOn : float64 := 0.95.
Definition kBounceDuration : Z := 500.

Definition animationReach_stop : M unit :=
  modify (fun s => State.set_animationReach (Simple.stop (State.animationReach s)) s) ;;
  call (@Call.animationReach_stop Action).

Definition animationReach_start (from to : float64) (duration : Z) : M unit :=
  modify (fun s => State.set_animationReach
                     (Simple.start from to duration (State.animationReach s)) s) ;;
  call (@Call.animationReach_start Action from to duration).

Definition animationEnd_stop : M unit :=
  modify (fun s => State.set_animationEnd (Simple.stop (State.animationEnd s)) s) ;;
  call (@Call.animationEnd_stop Action).

Definition animationEnd_start (from to : float64) (duration : Z) : M unit :=
  modify (fun s => State.set_animationEnd
                     (Simple.start from to duration (State.animationEnd s)) s) ;;
  call (@Call.animationEnd_start Action from to duration).

(** The notification [updateRatio] hands to [update]. *)
Definition updateData (ratio : float64) (state : State.t Action)
  : ChatPaintGestureHorizontalData.t :=
  ChatPaintGestureHorizontalData.make
    (clamp ratio 0 1.5)
    (Simple.value (State.animationReach state) 0)
    (int_of_float64 (SafeRound (- clamp ratio 0 1.5 * threshold)%float))
    (SwipeHandlerFinishData.msgBareId (State.finishByTopData state))
    (State.cursorTop state).

Definition updateRatio (ratio : float64) : M unit :=
  state <- get ;;
  call (@Call.update Action (updateData ratio state)).

Definition setOrientation (o : option Orientation) : M unit :=
  modify (State.set_orientation o) ;;
  let isHorizontal := isHorizontal o in
  call (@Call.setAcceptTouchEvents Action (negb isHorizontal)) ;;
  call (@Call.disableScroll Action isHorizontal).

Definition processEnd (delta : option QPointF.t) : M unit :=
  state <- get ;;
  (if isHorizontal (State.orientation state) then
     let ratio := (QPointF.x (value_or delta (State.delta state)) / threshold)%float in
     (if ge ratio 1 then
        match SwipeHandlerFinishData.callback (State.finishByTopData state) with
        | Some callback => call (Call.PostponeCall callback)
        | None => ret tt
        end
      else ret tt) ;;
     animationReach_stop ;;
     animationEnd_stop ;;
     animationEnd_start ratio 0 slideWrapDuration
   else ret tt) ;;
  setOrientation None ;;
  modify (State.set_started false) ;;
  modify (State.set_reached false).

(** [scroll->scrolls() | rpl::start_with_next(...)]: run on every scroll. *)
Definition onScroll : M unit := processEnd None.

Definition animationReachCallback : M unit :=
  state <- get ;;
  updateRatio (QPointF.x (State.delta state) / threshold)%float.

(** [updateWith]; [cursorPosY] is what [widget->mapFromGlobal(QCursor::pos()).y()]
    returns when the closure runs. *)
Definition updateWith (cursorPosY : Z) (args : UpdateArgs.t) : M unit :=
  state <- get ;;
  if negb (State.started state)
     || negb (Bool.eqb (State.touch state) (UpdateArgs.touch args)) then
    modify (State.set_started true) ;;
    modify (State.set_touch (UpdateArgs.touch args)) ;;
    modify (State.set_startAt (UpdateArgs.position args)) ;;
    modify (State.set_delta QPointF.null) ;;
    modify (State.set_cursorTop cursorPosY) ;;
    top <- gets State.cursorTop ;;
    call (@Call.generateFinishByTop_called Action top) ;;
    modify (State.set_finishByTopData (generateFinishByTop top)) ;;
    data <- gets State.finishByTopData ;;
    if isSet (SwipeHandlerFinishData.callback data) then ret tt
    else setOrientation (Some Vertical)
  else if negb (isSet (State.orientation state)) then
    modify (State.set_delta (UpdateArgs.delta args)) ;;
    let diffXtoY := (fabs (QPointF.x (UpdateArgs.delta args))
                     - fabs (QPointF.y (UpdateArgs.delta args)))%float in
    if gt diffXtoY kOrientationThreshold then
      setOrientation (Some Horizontal)
    else if lt diffXtoY (- kOrientationThreshold)%float then
      setOrientation (Some Vertical)
    else
      setOrientation None
  else if isHorizontal (State.orientation state) then
    modify (State.set_delta (UpdateArgs.delta args)) ;;
    let ratio := (QPointF.x (UpdateArgs.delta args) / threshold)%float in
    updateRatio ratio ;;
    reached <- gets State.reached ;;
    if negb reached && ge ratio 1 then
      modify (State.set_reached true) ;;
      animationReach_stop ;;
      animationReach_start 0 1 kBounceDuration ;;
      call (@Call.Haptic Action)
    else if reached && lt ratio kResetReachedOn then
      modify (State.set_reached false)
    else ret tt
  else ret tt.

(** The [released] and [cancel] locals of the touch case. *)
Definition released (touches : list TouchPoint.t) (index : nat) : bool :=
  (index <? length touches)%nat
  && negb (Z.land (TouchPoint.state (at_ touches index)) TouchPointReleased =? 0)%Z.

Definition isTouchScreen (device : option TouchDevice) : bool :=
  match device with Some TouchScreen => true | _ => false end.

Definition touchCancel (type : TouchType) (touchscreen : bool)
  (touches : list TouchPoint.t) : bool :=
  released touches 0
  || released touches 1
  || (if touchscreen then negb (length touches =? 1)%nat
      else (length touches <=? 0)%nat || (2 <? length touches)%nat)
  || TouchType_eqb type TouchEnd
  || TouchType_eqb type TouchCancel.

(** The [cancel] local of the wheel case. *)
Definition wheelCancel (buttons : Z) (phase : ScrollPhase) : bool :=
  negb (buttons =? 0)%Z
  || ScrollPhase_eqb phase ScrollEnd
  || ScrollPhase_eqb phase ScrollMomentum.

(** The event filter installed on the widget. *)
Definition filter (cursorPosY : Z) (e : QEvent) : M EventFilterResult :=
  match e with
  | Leave =>
      state <- get ;;
      (if isSet (State.orientation state) then processEnd None else ret tt) ;;
      ret Continue
  | MouseMove pos_y =>
      state <- get ;;
      (if isSet (State.orientation state) then
         if (Z.abs (pos_y - State.cursorTop state) >? startDragDistance)%Z then
           processEnd None
         else ret tt
       else ret tt) ;;
      ret Continue
  | Touch type device touches =>
      let touchscreen := isTouchScreen device in
      if negb IsMac && negb touchscreen then ret Continue
      else
        state <- get ;;
        (if touchCancel type touchscreen touches then
           processEnd
             (match touches with
              | [] => None
              | _ => Some (QPointF.sub (State.startAt state)
                                       (TouchPoint.pos (at_ touches 0)))
              end)
         else
           updateWith cursorPosY
             (UpdateArgs.make
                (TouchPoint.pos (at_ touches 0))
                (QPointF.sub (State.startAt state) (TouchPoint.pos (at_ touches 0)))
                true)) ;;
        ret Cancel
  | Wheel phase buttons ScrollDelta =>
      if IsMac || ScrollPhase_eqb phase NoScrollPhase then ret Continue
      else
        state <- get ;;
        (if wheelCancel buttons phase then processEnd None
         else
           updateWith cursorPosY
             (UpdateArgs.make
                QPointF.null
                (QPointF.sub (State.delta state) ScrollDelta)
                false)) ;;
        ret Continue
  | OtherEvent => ret Continue
  end.

(** A batch of update samples, and a batch of events, handled one by one. *)
Fixpoint updateWithAll (samples : list (Z * UpdateArgs.t)) : M unit :=
  match samples with
  | [] => ret tt
  | (cursorPosY, args) :: rest => updateWith cursorPosY args ;; updateWithAll rest
  end.

Fixpoint filterAll (events : list (Z * QEvent)) : M unit :=
  match events with
  | [] => ret tt
  | (cursorPosY, e) :: rest => filter cursorPosY e ;; filterAll rest
  end.

(** ** Reading a trace *)

(** The actions handed to [Ui::PostponeCall], in order. *)
Definition postponed (l : list (Call.t Action)) : list Action :=
  flat_map (fun c => match c with Call.PostponeCall cb => [cb] | _ => [] end) l.

(** The arguments the resolver was called with. *)
Definition resolverCalls (l : list (Call.t Action)) : list Z :=
  flat_map (fun c => match c with Call.generateFinishByTop_called top => [top]
                             | _ => [] end) l.

(** The notifications given to [update]. *)
Definition updates (l : list (Call.t Action))
  : list ChatPaintGestureHorizontalData.t :=
  flat_map (fun c => match c with Call.update d => [d] | _ => [] end) l.

Definition isScrollCall (c : Call.t Action) : bool :=
  match c with
  | Call.setAcceptTouchEvents _ | Call.disableScroll _ => true
  | _ => false
  end.

Definition isAnimationCall (c : Call.t Action) : bool :=
  match c with
  | Call.animationReach_stop | Call.animationReach_start _ _ _
  | Call.animationEnd_stop | Call.animationEnd_start _ _ _ => true
  | _ => false
  end.

Definition isReachStartOrHaptic (c : Call.t Action) : bool :=
  match c with
  | Call.animationReach_start _ _ _ | Call.Haptic => true
  | _ => false
  end.

(** Calls to the scroll area, to the animations, and the reach feedback. *)
Definition scrollCalls (l : list (Call.t Action)) : list (Call.t Action) :=
  List.filter isScrollCall l.
Definition animationCalls (l : list (Call.t Action)) : list (Call.t Action) :=
  List.filter isAnimationCall l.
Definition reachFeedback (l : list (Call.t Action)) : list (Call.t Action) :=
  List.filter isReachStartOrHaptic l.

(** ** Entry points *)

(** Everything [SetupSwipeHandler] registers: the event filter, the
    subscription to the scroll area's [scrolls()], and the callbacks of the
    two animations ([animationReachCallback] for the reach animation,
    [updateRatio] for the end animation). *)
Inductive Entry : Type :=
| OnEvent (cursorPosY : Z) (e : QEvent)
| OnScroll
| OnReachTick (handle : Simple.t)
| OnEndTick (handle : Simple.t) (value : float64).

(** Modelled from the spec: a tick of an animation (lib_ui's animation
    manager).  The engine advances the handle, to a new current value or to
    idle once the duration has elapsed, and then runs the callback the
    animation was started with, passing it the animated value.  The handle
    after the engine's step and the animated value are inputs of the tick
    here, whatever they are. *)
Definition run (en : Entry) : M unit :=
  match en with
  | OnEvent cursorPosY e => filter cursorPosY e ;; ret tt
  | OnScroll => onScroll
  | OnReachTick handle =>
      modify (State.set_animationReach handle) ;; animationReachCallback
  | OnEndTick handle value =>
      modify (State.set_animationEnd handle) ;; updateRatio value
  end.

(** The states the handler can be in: the initial one and every state an
    entry point leaves behind. *)
Inductive reachable : State.t Action -> Prop :=
| reachable_initial : reachable State.initial
| reachable_run (en : Entry) (s : State.t Action) :
    reachable s -> reachable (final (run en) s).

(** The live ratio of a sample. *)
Definition ratioOf (args : UpdateArgs.t) : float64 :=
  (QPointF.x (UpdateArgs.delta args) / threshold)%float.

(** ** Vocabulary of the properties *)

(** The ratio [processEnd] computes: the override delta's [x] when one is
    supplied, the live delta's otherwise, over the threshold. *)
Definition finalRatio (delta : option QPointF.t) (s : State.t Action) : float64 :=
  (QPointF.x (value_or delta (State.delta s)) / threshold)%float.

(** The state [processEnd] leaves when the orientation is not horizontal. *)
Definition cleared (s : State.t Action) : State.t Action :=
  State.set_reached false (State.set_started false (State.set_orientation None s)).

(** The state [processEnd] leaves when the orientation is horizontal. *)
Definition settled (ratio : float64) (s : State.t Action) : State.t Action :=
  cleared
    (State.set_animationEnd (Simple.start ratio 0 slideWrapDuration Simple.idle)
       (State.set_animationReach Simple.idle s)).

(** The guard of the first branch: no gesture in progress, or the source type
    (touch or not) differs from the gesture's. *)
Definition firstSample (s : State.t Action) (args : UpdateArgs.t) : bool :=
  negb (State.started s)
  || negb (Bool.eqb (State.touch s) (UpdateArgs.touch args)).

(** The state after the assignments of the first branch. *)
Definition seeded (cursorPosY : Z) (args : UpdateArgs.t) (s : State.t Action)
  : State.t Action :=
  State.set_finishByTopData (generateFinishByTop cursorPosY)
    (State.set_cursorTop cursorPosY
       (State.set_delta QPointF.null
          (State.set_startAt (UpdateArgs.position args)
             (State.set_touch (UpdateArgs.touch args)
                (State.set_started true s))))).

(** [diffXtoY] of the second branch. *)
Definition diffXtoY (args : UpdateArgs.t) : float64 :=
  (fabs (QPointF.x (UpdateArgs.delta args))
   - fabs (QPointF.y (UpdateArgs.delta args)))%float.

(** The orientation the second branch passes to [setOrientation]. *)
Definition classify (args : UpdateArgs.t) : option Orientation :=
  if gt (diffXtoY args) kOrientationThreshold then Some Horizontal
  else if lt (diffXtoY args) (- kOrientationThreshold)%float then Some Vertical
  else None.

(** The flag after a horizontal sample of ratio [r], as the third branch of
    [updateWith] sets it. *)
Definition hysteresis (reached : bool) (r : float64) : bool :=
  if negb reached && ge r 1 then true
  else if reached && lt r kResetReachedOn then false
  else reached.

(** The number of samples, in a run of horizontal samples with ratios [rs],
    that arrive with the flag false and a ratio [>= 1]. *)
Fixpoint crossings (reached : bool) (rs : list float64) : nat :=
  match rs with
  | [] => 0
  | r :: rest =>
      (if negb reached && ge r 1 then 1 else 0)%nat
      + crossings (hysteresis reached r) rest
  end.

(** The calls of one start of the reach animation with its haptic cue. *)
Definition bounce : list (Call.t Action) :=
  [Call.animationReach_start 0 1 500; Call.Haptic].

(** What the filter does with an event: nothing, end the gesture, or feed an
    update sample. *)
Inductive Handling : Type :=
| Ignored
| Ends (delta : option QPointF.t)
| Updates (args : UpdateArgs.t).

Definition handle (cursorPosY : Z) (h : Handling) : M unit :=
  match h with
  | Ignored => ret tt
  | Ends delta => processEnd delta
  | Updates args => updateWith cursorPosY args
  end.

(** The branch the filter takes on [e] in state [s]. *)
Definition handling (e : QEvent) (s : State.t Action) : Handling :=
  match e with
  | Leave => if isSet (State.orientation s) then Ends None else Ignored
  | MouseMove pos_y =>
      if isSet (State.orientation s)
         && (Z.abs (pos_y - State.cursorTop s) >? startDragDistance)%Z
      then Ends None else Ignored
  | Touch type device touches =>
      if negb IsMac && negb (isTouchScreen device) then Ignored
      else if touchCancel type (isTouchScreen device) touches then
        Ends (match touches with
              | [] => None
              | _ => Some (QPointF.sub (State.startAt s)
                                       (TouchPoint.pos (at_ touches 0)))
              end)
      else
        Updates (UpdateArgs.make
                   (TouchPoint.pos (at_ touches 0))
                   (QPointF.sub (State.startAt s) (TouchPoint.pos (at_ touches 0)))
                   true)
  | Wheel phase buttons ScrollDelta =>
      if IsMac || ScrollPhase_eqb phase NoScrollPhase then Ignored
      else if wheelCancel buttons phase then Ends None
      else Updates (UpdateArgs.make QPointF.null
                      (QPointF.sub (State.delta s) ScrollDelta) false)
  | OtherEvent => Ignored
  end.

(** A notification whose [ratio] and [translation] come from the unclamped
    ratio [r]. *)
Definition clampedFrom (r : float64) (d : ChatPaintGestureHorizontalData.t) : Prop :=
  ChatPaintGestureHorizontalData.ratio d = clamp r 0 1.5
  /\ ChatPaintGestureHorizontalData.translation d =
       int_of_float64 (SafeRound (- clamp r 0 1.5 * threshold)%float).

(** The unclamped ratio an entry point hands to [updateRatio]: on a tick of the
    end animation the animated value the animation passes to its callback, in
    every other case the live [delta.x] over the threshold. *)
Definition internalRatio (en : Entry) (s : State.t Action) : float64 :=
  match en with
  | OnEndTick _ value => value
  | _ => (QPointF.x (State.delta (final (run en) s)) / threshold)%float
  end.

(** A batch of entries, run one by one. *)
Fixpoint runAll (ens : list Entry) : M unit :=
  match ens with
  | [] => ret tt
  | en :: rest => run en ;; runAll rest
  end.

(** Whether the filter feeds [e] to [updateWith]: an accepted touch event, or
    a wheel event with a scroll phase off macOS, for which the [cancel] local
    is false. *)
Definition feedsUpdate (e : QEvent) : bool :=
  match e with
  | Touch type device touches =>
      (IsMac || isTouchScreen device)
      && negb (touchCancel type (isTouchScreen device) touches)
  | Wheel phase buttons _ =>
      negb (IsMac || ScrollPhase_eqb phase NoScrollPhase)
      && negb (wheelCancel buttons phase)
  | _ => false
  end.

Definition isUpdateEntry (en : Entry) : bool :=
  match en with
  | OnEvent _ e => feedsUpdate e
  | _ => false
  end.

(** What the scroll area was last told: the argument of the last
    [disableScroll] call of a trace, and of the last touch-acceptance call;
    [before] when the trace has none. *)
Definition scrollDisabled (l : list (Call.t Action)) (before : bool) : bool :=
  fold_left (fun d c => match c with Call.disableScroll b => b | _ => d end)
            l before.
Definition touchAccepted (l : list (Call.t Action)) (before : bool) : bool :=
  fold_left (fun d c => match c with Call.setAcceptTouchEvents b => b | _ => d end)
            l before.

(** ** Facts about binary64 comparisons *)

Lemma compare_cont_swap (p q : positive) :
  PosDef.Pos.compare_cont Eq q p = CompOpp (PosDef.Pos.compare_cont Eq p q).
Proof. exact (eq_sym (Pos.compare_cont_antisym p q Eq)). Qed.

Lemma SFcompare_antisym (a b : spec_float) :
  SFcompare b a = option_map CompOpp (SFcompare a b).
Proof.
  destruct a as [sa|sa| |sa ma ea], b as [sb|sb| |sb mb eb];
    try reflexivity;
    try (destruct sa; reflexivity);
    try (destruct sb; reflexivity);
    try (destruct sa, sb; reflexivity).
  unfold SFcompare, option_map.
  destruct sa, sb; try reflexivity; f_equal.
  all: rewrite (Z.compare_antisym ea eb);
    destruct (ea ?= eb)%Z; try reflexivity.
  all: cbn [CompOpp]; rewrite (compare_cont_swap ma mb);
    destruct (PosDef.Pos.compare_cont Eq ma mb); reflexivity.
Qed.

Lemma SFcompare_total (a b : spec_float) :
  a <> S754_nan -> b <> S754_nan -> exists c, SFcompare a b = Some c.
Proof.
  intros Ha Hb.
  destruct a as [sa|sa| |sa ma ea], b as [sb|sb| |sb mb eb];
    try congruence; unfold SFcompare; eexists; reflexivity.
Qed.

Lemma is_nan_false (a : float64) : is_nan a = false -> Prim2SF a <> S754_nan.
Proof.
  unfold is_nan. rewrite eqb_spec. unfold SFeqb. intros H E.
  rewrite E in H. discriminate H.
Qed.

Lemma lt_not_ge (a b : float64) : lt a b = true -> ge a b = false.
Proof.
  unfold lt, ge. rewrite ltb_spec, leb_spec. unfold SFltb, SFleb.
  rewrite (SFcompare_antisym (Prim2SF a) (Prim2SF b)).
  destruct (SFcompare (Prim2SF a) (Prim2SF b)) as [[| |]|];
    cbn [option_map CompOpp]; congruence.
Qed.

Lemma ge_not_lt (a b : float64) : ge a b = true -> lt a b = false.
Proof.
  intros H. destruct (lt a b) eqn:E; [|reflexivity].
  apply lt_not_ge in E. congruence.
Qed.

Lemma le_not_gt (a b : float64) : le a b = true -> gt a b = false.
Proof. unfold gt, le. intros H. exact (ge_not_lt b a H). Qed.

(** Two numbers (neither is NaN) are always comparable. *)
Lemma not_lt_ge (a b : float64) :
  is_nan a = false -> is_nan b = false -> lt a b = false -> ge a b = true.
Proof.
  intros Ha Hb. apply is_nan_false in Ha. apply is_nan_false in Hb.
  unfold lt, ge. rewrite ltb_spec, leb_spec. unfold SFltb, SFleb.
  rewrite (SFcompare_antisym (Prim2SF a) (Prim2SF b)).
  destruct (SFcompare_total _ _ Ha Hb) as [c ->].
  destruct c; cbn [option_map CompOpp]; congruence.
Qed.

Lemma le_refl (a : float64) : is_nan a = false -> le a a = true.
Proof.
  intros Ha. apply (not_lt_ge a a Ha Ha).
  destruct (lt a a) eqn:E; [|reflexivity].
  pose proof (lt_not_ge _ _ E) as E'. pose proof (is_nan_false _ Ha) as N.
  unfold lt, ge in *. rewrite ltb_spec in E. rewrite leb_spec in E'.
  unfold SFltb, SFleb in *.
  destruct (SFcompare (Prim2SF a) (Prim2SF a)) as [[| |]|]; congruence.
Qed.

(** A clamped number lies between the bounds (when the bounds are ordered
    numbers and the value is not NaN). *)
Lemma clamp_bounds (v lo hi : float64) :
  is_nan v = false -> is_nan lo = false -> is_nan hi = false ->
  le lo hi = true ->
  le lo (clamp v lo hi) = true /\ le (clamp v lo hi) hi = true.
Proof.
  intros Hv Hlo Hhi Hle. unfold clamp.
  destruct (lt v lo) eqn:E1; [|destruct (lt hi v) eqn:E2].
  - split; [exact (le_refl lo Hlo)|exact Hle].
  - split; [exact Hle|exact (le_refl hi Hhi)].
  - split; [exact (not_lt_ge v lo Hv Hlo E1)|exact (not_lt_ge hi v Hhi Hv E2)].
Qed.

(** A number below -1 is not above 1 (no transitivity needed: the two
    comparisons disagree on the sign). *)
Lemma below_minus_one_not_above_one (d : float64) :
  lt d (-1)%float = true -> gt d 1%float = false.
Proof.
  unfold lt, gt. rewrite !ltb_spec. unfold SFltb.
  let m := eval vm_compute in (Prim2SF (-1)%float) in
    change (Prim2SF (-1)%float) with m.
  let p := eval vm_compute in (Prim2SF 1%float) in
    change (Prim2SF 1%float) with p.
  destruct (Prim2SF d) as [sd|sd| |sd md ed]; try destruct sd;
    unfold SFcompare; congruence.
Qed.

(** ** What [processEnd] does *)

Lemma processEnd_not_horizontal_eq (delta : option QPointF.t) (s : State.t Action) :
  isHorizontal (State.orientation s) = false ->
  processEnd delta s =
    (tt, cleared s, [Call.setAcceptTouchEvents true; Call.disableScroll false]).
Proof.
  intros H. unfold processEnd, bind, get. cbn. rewrite H. reflexivity.
Qed.

Lemma processEnd_horizontal_eq (delta : option QPointF.t) (s : State.t Action) :
  isHorizontal (State.orientation s) = true ->
  processEnd delta s =
    (tt, settled (finalRatio delta s) s,
     (if ge (finalRatio delta s) 1 then
        match SwipeHandlerFinishData.callback (State.finishByTopData s) with
        | Some callback => [Call.PostponeCall callback]
        | None => []
        end
      else [])
     ++ [Call.animationReach_stop; Call.animationEnd_stop;
         Call.animationEnd_start (finalRatio delta s) 0 slideWrapDuration;
         Call.setAcceptTouchEvents true; Call.disableScroll false]).
Proof.
  intros H. unfold processEnd, bind, get. cbn. rewrite H.
  fold (finalRatio delta s).
  destruct (ge (finalRatio delta s) 1);
    [destruct (SwipeHandlerFinishData.callback (State.finishByTopData s))|];
    reflexivity.
Qed.

Lemma isHorizontal_true (o : option Orientation) :
  isHorizontal o = true <-> o = Some Horizontal.
Proof.
  destruct o as [[|]|]; cbn; split; intros H; try reflexivity; discriminate H.
Qed.

Lemma isHorizontal_false (o : option Orientation) :
  isHorizontal o = false <-> o <> Some Horizontal.
Proof.
  destruct o as [[|]|]; cbn; split; intros H; try reflexivity;
    try discriminate H; try (intros E; discriminate E).
  exfalso. apply H. reflexivity.
Qed.

Lemma postponed_app (l1 l2 : list (Call.t Action)) :
  postponed (l1 ++ l2) = postponed l1 ++ postponed l2.
Proof. unfold postponed. apply flat_map_app. Qed.

Lemma resolverCalls_app (l1 l2 : list (Call.t Action)) :
  resolverCalls (l1 ++ l2) = resolverCalls l1 ++ resolverCalls l2.
Proof. unfold resolverCalls. apply flat_map_app. Qed.

Lemma updates_app (l1 l2 : list (Call.t Action)) :
  updates (l1 ++ l2) = updates l1 ++ updates l2.
Proof. unfold updates. apply flat_map_app. Qed.

Lemma reachFeedback_app (l1 l2 : list (Call.t Action)) :
  reachFeedback (l1 ++ l2) = reachFeedback l1 ++ reachFeedback l2.
Proof. unfold reachFeedback. apply filter_app. Qed.

(** What [processEnd] hands to [Ui::PostponeCall]. *)
Lemma processEnd_postponed (delta : option QPointF.t) (s : State.t Action) :
  postponed (calls (processEnd delta) s) =
    if isHorizontal (State.orientation s) && ge (finalRatio delta s) 1 then
      match SwipeHandlerFinishData.callback (State.finishByTopData s) with
      | Some callback => [callback]
      | None => []
      end
    else [].
Proof.
  unfold calls. destruct (isHorizontal (State.orientation s)) eqn:H.
  - rewrite (processEnd_horizontal_eq delta s H). cbn [snd andb].
    rewrite postponed_app.
    destruct (ge (finalRatio delta s) 1);
      [destruct (SwipeHandlerFinishData.callback (State.finishByTopData s))|];
      reflexivity.
  - rewrite (processEnd_not_horizontal_eq delta s H). reflexivity.
Qed.

(** C1.  When [processEnd] runs with the orientation horizontal, the
    completion action is handed to [Ui::PostponeCall] (a deferred call; no
    closure of the handler ever runs an action itself) exactly once if and only
    if the final ratio (the override delta's [x] if supplied, else the live
    delta's, over the threshold) is [>= 1] and the resolver produced an action;
    in any case it is scheduled at most once; and with a final ratio [< 1], or
    with no action, nothing is scheduled, whatever the orientation. *)
Theorem processEnd_schedules_action (delta : option QPointF.t) (s : State.t Action) :
  (State.orientation s = Some Horizontal ->
   forall cb : Action,
     postponed (calls (processEnd delta) s) = [cb]
     <-> ge (finalRatio delta s) 1 = true
         /\ SwipeHandlerFinishData.callback (State.finishByTopData s) = Some cb)
  /\ (postponed (calls (processEnd delta) s) = []
      \/ exists cb : Action, postponed (calls (processEnd delta) s) = [cb])
  /\ (lt (finalRatio delta s) 1 = true
      \/ SwipeHandlerFinishData.callback (State.finishByTopData s) = None ->
      postponed (calls (processEnd delta) s) = []).
Proof.
  rewrite processEnd_postponed. split; [|split].
  - intros Ho cb. apply isHorizontal_true in Ho. rewrite Ho. cbn [andb].
    split.
    + intros H. destruct (ge (finalRatio delta s) 1); [|discriminate H].
      destruct (SwipeHandlerFinishData.callback (State.finishByTopData s));
        [|discriminate H].
      split; congruence.
    + intros [Hge Hcb]. rewrite Hge, Hcb. reflexivity.
  - destruct (isHorizontal (State.orientation s) && ge (finalRatio delta s) 1);
      [|left; reflexivity].
    destruct (SwipeHandlerFinishData.callback (State.finishByTopData s)) as [cb|];
      [right; exists cb|left]; reflexivity.
  - intros [Hlt|Hnone].
    + rewrite (lt_not_ge _ _ Hlt), andb_false_r. reflexivity.
    + rewrite Hnone.
      destruct (isHorizontal (State.orientation s) && ge (finalRatio delta s) 1);
        reflexivity.
Qed.

(** C5 (as amended).  Every call to [processEnd] leaves the orientation unset
    and [started] and [reached] false.  When the orientation was horizontal it
    first stops the reach and the end animation and then starts the end
    animation from the final ratio (override delta if supplied, else the live
    delta, over the threshold; not clamped) down to 0 over
    [st::slideWrapDuration]; otherwise it touches no animation. *)
Theorem processEnd_ends_gesture (delta : option QPointF.t) (s : State.t Action) :
  (State.orientation (final (processEnd delta) s) = None
   /\ State.started (final (processEnd delta) s) = false
   /\ State.reached (final (processEnd delta) s) = false)
  /\ (State.orientation s = Some Horizontal ->
      animationCalls (calls (processEnd delta) s) =
        [Call.animationReach_stop; Call.animationEnd_stop;
         Call.animationEnd_start (finalRatio delta s) 0 slideWrapDuration]
      /\ State.animationReach (final (processEnd delta) s) = Simple.idle
      /\ State.animationEnd (final (processEnd delta) s) =
           Some (Simple.make (finalRatio delta s) 0 slideWrapDuration
                             (finalRatio delta s)))
  /\ (State.orientation s <> Some Horizontal ->
      animationCalls (calls (processEnd delta) s) = []
      /\ State.animationReach (final (processEnd delta) s) = State.animationReach s
      /\ State.animationEnd (final (processEnd delta) s) = State.animationEnd s).
Proof.
  unfold final, calls. split; [|split].
  - destruct (isHorizontal (State.orientation s)) eqn:H.
    + rewrite (processEnd_horizontal_eq delta s H). cbn. auto.
    + rewrite (processEnd_not_horizontal_eq delta s H). cbn. auto.
  - intros H. apply isHorizontal_true in H.
    rewrite (processEnd_horizontal_eq delta s H). cbn [fst snd].
    split; [|split; reflexivity].
    unfold animationCalls. rewrite filter_app.
    destruct (ge (finalRatio delta s) 1);
      [destruct (SwipeHandlerFinishData.callback (State.finishByTopData s))|];
      reflexivity.
  - intros H. apply isHorizontal_false in H.
    rewrite (processEnd_not_horizontal_eq delta s H). cbn. auto.
Qed.

(** C9.  When [processEnd] runs while the orientation is not horizontal
    (vertical or unset) it starts no animation, emits no update notification
    and schedules no completion action: its only calls re-enable the viewport's
    touch acceptance and the scroll area's scrolling, and its only state
    changes are unsetting the orientation and setting [started] and [reached]
    to false. *)
Theorem processEnd_not_horizontal (delta : option QPointF.t) (s : State.t Action) :
  State.orientation s <> Some Horizontal ->
  animationCalls (calls (processEnd delta) s) = []
  /\ updates (calls (processEnd delta) s) = []
  /\ postponed (calls (processEnd delta) s) = []
  /\ calls (processEnd delta) s =
       [Call.setAcceptTouchEvents true; Call.disableScroll false]
  /\ final (processEnd delta) s =
       State.set_reached false
         (State.set_started false (State.set_orientation None s)).
Proof.
  intros H. apply isHorizontal_false in H. unfold final, calls.
  rewrite (processEnd_not_horizontal_eq delta s H). cbn [fst snd].
  repeat split.
Qed.

(** ** What [updateWith] does, branch by branch *)

Lemma updateWith_first_eq (cursorPosY : Z) (args : UpdateArgs.t) (s : State.t Action) :
  firstSample s args = true ->
  updateWith cursorPosY args s =
    if isSet (SwipeHandlerFinishData.callback (generateFinishByTop cursorPosY))
    then (tt, seeded cursorPosY args s,
          [Call.generateFinishByTop_called cursorPosY])
    else (tt, State.set_orientation (Some Vertical) (seeded cursorPosY args s),
          [Call.generateFinishByTop_called cursorPosY;
           Call.setAcceptTouchEvents true; Call.disableScroll false]).
Proof.
  unfold firstSample. intros H. unfold updateWith, bind, get. cbn.
  rewrite H. cbn.
  destruct (isSet (SwipeHandlerFinishData.callback (generateFinishByTop cursorPosY)));
    reflexivity.
Qed.

Lemma updateWith_undetermined_eq (cursorPosY : Z) (args : UpdateArgs.t)
  (s : State.t Action) :
  firstSample s args = false -> State.orientation s = None ->
  updateWith cursorPosY args s =
    (tt, State.set_orientation (classify args)
           (State.set_delta (UpdateArgs.delta args) s),
     [Call.setAcceptTouchEvents (negb (isHorizontal (classify args)));
      Call.disableScroll (isHorizontal (classify args))]).
Proof.
  unfold firstSample. intros H Ho. unfold updateWith, bind, get. cbn.
  rewrite H, Ho. unfold classify. cbn. fold (diffXtoY args).
  destruct (gt (diffXtoY args) kOrientationThreshold);
    [|destruct (lt (diffXtoY args) (-1)%float)];
    reflexivity.
Qed.

Lemma updateWith_horizontal_eq (cursorPosY : Z) (args : UpdateArgs.t)
  (s : State.t Action) :
  firstSample s args = false -> State.orientation s = Some Horizontal ->
  updateWith cursorPosY args s =
    let s1 := State.set_delta (UpdateArgs.delta args) s in
    if negb (State.reached s) && ge (ratioOf args) 1 then
      (tt,
       State.set_animationReach
         (Simple.start 0 1 kBounceDuration Simple.idle)
         (State.set_reached true s1),
       [Call.update (updateData (ratioOf args) s1);
        Call.animationReach_stop;
        Call.animationReach_start 0 1 kBounceDuration;
        Call.Haptic])
    else if State.reached s && lt (ratioOf args) kResetReachedOn then
      (tt, State.set_reached false s1,
       [Call.update (updateData (ratioOf args) s1)])
    else
      (tt, s1, [Call.update (updateData (ratioOf args) s1)]).
Proof.
  unfold firstSample. intros H Ho. unfold updateWith, bind, get. cbn.
  rewrite H, Ho. unfold ratioOf. cbn.
  destruct (State.reached s); cbn; break_if; reflexivity.
Qed.

Lemma updateWith_vertical_eq (cursorPosY : Z) (args : UpdateArgs.t)
  (s : State.t Action) :
  firstSample s args = false -> State.orientation s = Some Vertical ->
  updateWith cursorPosY args s = (tt, s, []).
Proof.
  unfold firstSample. intros H Ho. unfold updateWith, bind, get. cbn.
  rewrite H, Ho. reflexivity.
Qed.

Lemma firstSample_false (s : State.t Action) (args : UpdateArgs.t) :
  firstSample s args = false
  <-> State.started s = true /\ State.touch s = UpdateArgs.touch args.
Proof.
  unfold firstSample.
  destruct (State.started s), (State.touch s), (UpdateArgs.touch args); cbn;
    split; intros H; try discriminate H; try (split; reflexivity);
    destruct H as [H1 H2]; try discriminate H1; discriminate H2.
Qed.

Lemma firstSample_true (s : State.t Action) (args : UpdateArgs.t) :
  firstSample s args = true
  <-> State.started s = false \/ State.touch s <> UpdateArgs.touch args.
Proof.
  unfold firstSample.
  destruct (State.started s), (State.touch s), (UpdateArgs.touch args); cbn;
    split; intros H; try reflexivity; try discriminate H;
    try (left; reflexivity); try (right; discriminate);
    destruct H as [H|H]; try discriminate H; exfalso; apply H; reflexivity.
Qed.

(** ** Orientation *)

(** C2 (as amended).  For an update sample processed while the orientation is
    unset (and which is not the first sample of the gesture), with
    [diff = |delta.x| - |delta.y|]: if [diff > 1] the orientation becomes
    horizontal (touch acceptance off, scrolling disabled); if [diff < -1] it
    becomes vertical; if [diff] is in [[-1, 1]] it stays unset.  In the last two
    cases [setOrientation] still calls the scroll collaborator: it sets the
    viewport's touch acceptance to true and calls [disableScroll(false)]. *)
Theorem updateWith_classifies (cursorPosY : Z) (args : UpdateArgs.t)
  (s : State.t Action) :
  State.started s = true ->
  State.touch s = UpdateArgs.touch args ->
  State.orientation s = None ->
  (gt (diffXtoY args) 1 = true ->
   State.orientation (final (updateWith cursorPosY args) s) = Some Horizontal
   /\ calls (updateWith cursorPosY args) s =
        [Call.setAcceptTouchEvents false; Call.disableScroll true])
  /\ (lt (diffXtoY args) (-1) = true ->
      State.orientation (final (updateWith cursorPosY args) s) = Some Vertical
      /\ calls (updateWith cursorPosY args) s =
           [Call.setAcceptTouchEvents true; Call.disableScroll false])
  /\ (le (-1) (diffXtoY args) = true -> le (diffXtoY args) 1 = true ->
      State.orientation (final (updateWith cursorPosY args) s) = None
      /\ calls (updateWith cursorPosY args) s =
           [Call.setAcceptTouchEvents true; Call.disableScroll false]).
Proof.
  intros Hstarted Htouch Hnone.
  assert (Hfirst : firstSample s args = false)
    by (apply firstSample_false; split; assumption).
  unfold final, calls.
  rewrite (updateWith_undetermined_eq cursorPosY args s Hfirst Hnone).
  cbn [fst snd State.orientation State.set_orientation].
  unfold classify.
  change (- kOrientationThreshold)%float with (-1)%float.
  unfold kOrientationThreshold.
  split; [|split].
  - intros Hgt. rewrite Hgt. split; reflexivity.
  - intros Hlt.
    rewrite (below_minus_one_not_above_one _ Hlt), Hlt. split; reflexivity.
  - intros Hlo Hhi.
    rewrite (le_not_gt _ _ Hhi).
    rewrite (ge_not_lt (diffXtoY args) (-1)%float Hlo). split; reflexivity.
Qed.

(** ** The [reached] flag and the reach animation *)

Lemma calls_bind {A B : Type} (m : M A) (k : A -> M B) (s : State.t Action) :
  calls (bind m k) s = calls m s ++ calls (k (result m s)) (final m s).
Proof.
  unfold calls, final, result, bind.
  destruct (m s) as [[a s1] c1]. cbn [fst snd].
  destruct (k a s1) as [[b s2] c2]. reflexivity.
Qed.

Lemma final_bind {A B : Type} (m : M A) (k : A -> M B) (s : State.t Action) :
  final (bind m k) s = final (k (result m s)) (final m s).
Proof.
  unfold final, result, bind.
  destruct (m s) as [[a s1] c1]. cbn [fst snd].
  destruct (k a s1) as [[b s2] c2]. reflexivity.
Qed.

Lemma updateWith_reached (cursorPosY : Z) (args : UpdateArgs.t) (s : State.t Action) :
  State.reached (final (updateWith cursorPosY args) s) =
    if negb (firstSample s args) && isHorizontal (State.orientation s)
    then hysteresis (State.reached s) (ratioOf args)
    else State.reached s.
Proof.
  unfold final. destruct (firstSample s args) eqn:Hf.
  - rewrite (updateWith_first_eq _ _ _ Hf). cbn [negb andb].
    destruct (isSet _); reflexivity.
  - cbn [negb andb]. destruct (State.orientation s) as [[|]|] eqn:Ho.
    + rewrite (updateWith_horizontal_eq _ _ _ Hf Ho).
      unfold hysteresis. cbn [isHorizontal].
      destruct (negb (State.reached s) && ge (ratioOf args) 1);
        [reflexivity|].
      destruct (State.reached s && lt (ratioOf args) kResetReachedOn);
        reflexivity.
    + rewrite (updateWith_vertical_eq _ _ _ Hf Ho). reflexivity.
    + rewrite (updateWith_undetermined_eq _ _ _ Hf Ho). reflexivity.
Qed.

(** One horizontal sample: what is kept, and the reach feedback it causes. *)
Lemma updateWith_horizontal_step (cursorPosY : Z) (args : UpdateArgs.t)
  (s : State.t Action) :
  State.started s = true ->
  State.touch s = UpdateArgs.touch args ->
  State.orientation s = Some Horizontal ->
  State.started (final (updateWith cursorPosY args) s) = true
  /\ State.touch (final (updateWith cursorPosY args) s) = State.touch s
  /\ State.orientation (final (updateWith cursorPosY args) s) = Some Horizontal
  /\ State.delta (final (updateWith cursorPosY args) s) = UpdateArgs.delta args
  /\ State.reached (final (updateWith cursorPosY args) s) =
       hysteresis (State.reached s) (ratioOf args)
  /\ reachFeedback (calls (updateWith cursorPosY args) s) =
       if negb (State.reached s) && ge (ratioOf args) 1 then bounce else [].
Proof.
  intros Hs Ht Ho.
  assert (Hf : firstSample s args = false)
    by (apply firstSample_false; split; assumption).
  unfold final, calls, hysteresis.
  rewrite (updateWith_horizontal_eq _ _ _ Hf Ho). cbn zeta.
  destruct (negb (State.reached s) && ge (ratioOf args) 1).
  - cbn. repeat split; assumption.
  - destruct (State.reached s && lt (ratioOf args) kResetReachedOn);
      cbn; repeat split; assumption.
Qed.

Lemma hysteresis_above_floor (reached : bool) (r : float64) :
  ge r kResetReachedOn = true ->
  hysteresis reached r = reached || ge r 1.
Proof.
  intros H. unfold hysteresis. rewrite (ge_not_lt _ _ H).
  destruct reached, (ge r 1); reflexivity.
Qed.

Lemma existsb_over_map {X Y : Type} (f : Y -> bool) (g : X -> Y) (l : list X) :
  existsb f (map g l) = existsb (fun x => f (g x)) l.
Proof.
  induction l as [|x l IH]; [reflexivity|]. cbn [map existsb]. rewrite IH.
  reflexivity.
Qed.

Lemma crossings_above_floor (reached : bool) (rs : list float64) :
  Forall (fun r => ge r kResetReachedOn = true) rs ->
  crossings reached rs =
    if negb reached && existsb (fun r => ge r 1) rs then 1%nat else 0%nat.
Proof.
  intros H. revert reached. induction H as [|r rest Hr _ IH]; intros reached.
  - cbn. destruct reached; reflexivity.
  - cbn [crossings existsb]. rewrite IH, (hysteresis_above_floor _ _ Hr).
    destruct reached, (ge r 1); cbn; try reflexivity.
Qed.

(** C3.  For every update sample, in every state: [reached] goes from false to
    true only when the orientation is horizontal and the live ratio (the
    sample's [delta.x] over the threshold, which is then the state's) is
    [>= 1]; it goes from true to false only when the live ratio is below 0.95;
    and a flag that is set stays set for every ratio [>= 0.95] (so for those in
    [[0.95, 1)]). *)
Theorem reached_hysteresis (cursorPosY : Z) (args : UpdateArgs.t)
  (s : State.t Action) :
  (State.reached s = false ->
   State.reached (final (updateWith cursorPosY args) s) = true ->
   State.orientation s = Some Horizontal
   /\ State.orientation (final (updateWith cursorPosY args) s) = Some Horizontal
   /\ State.delta (final (updateWith cursorPosY args) s) = UpdateArgs.delta args
   /\ ge (ratioOf args) 1 = true)
  /\ (State.reached s = true ->
      State.reached (final (updateWith cursorPosY args) s) = false ->
      lt (ratioOf args) 0.95 = true)
  /\ (State.reached s = true ->
      le 0.95 (ratioOf args) = true ->
      State.reached (final (updateWith cursorPosY args) s) = true).
Proof.
  rewrite updateWith_reached. unfold hysteresis, kResetReachedOn.
  split; [|split].
  - intros Hr. rewrite Hr. cbn [negb andb].
    destruct (firstSample s args) eqn:Hf; cbn [negb andb]; [discriminate|].
    destruct (State.orientation s) as [[|]|] eqn:Ho; cbn [isHorizontal];
      try discriminate.
    destruct (ge (ratioOf args) 1) eqn:Hge; [|discriminate].
    intros _. apply firstSample_false in Hf. destruct Hf as [Hs Ht].
    destruct (updateWith_horizontal_step cursorPosY args s Hs Ht Ho)
      as (_ & _ & Ho' & Hd' & _).
    repeat split; assumption.
  - intros Hr. rewrite Hr. cbn [negb andb].
    destruct (negb (firstSample s args) && isHorizontal (State.orientation s));
      [|discriminate].
    destruct (lt (ratioOf args) 0.95); [reflexivity|discriminate].
  - intros Hr Hle. rewrite Hr. cbn [negb andb].
    rewrite (ge_not_lt (ratioOf args) 0.95 Hle).
    destruct (negb (firstSample s args) && isHorizontal (State.orientation s));
      reflexivity.
Qed.

Lemma updateWithAll_feedback (samples : list (Z * UpdateArgs.t)) :
  forall s : State.t Action,
  State.started s = true ->
  State.orientation s = Some Horizontal ->
  Forall (fun p => UpdateArgs.touch (snd p) = State.touch s) samples ->
  reachFeedback (calls (updateWithAll samples) s) =
    concat (repeat bounce
              (crossings (State.reached s) (map (fun p => ratioOf (snd p)) samples))).
Proof.
  induction samples as [|[c a] rest IH]; intros s Hs Ho Hall.
  - reflexivity.
  - inversion Hall as [|p l Ht Hrest]; subst. cbn [snd] in Ht.
    destruct (updateWith_horizontal_step c a s Hs (eq_sym Ht) Ho)
      as (Hs' & Ht' & Ho' & _ & Hr' & Hfb).
    cbn [updateWithAll]. rewrite calls_bind, reachFeedback_app, Hfb.
    rewrite IH; [|assumption|assumption|rewrite Ht'; assumption].
    rewrite Hr'. cbn [map crossings snd].
    destruct (negb (State.reached s) && ge (ratioOf a) 1); reflexivity.
Qed.

(** C4.  In a run of horizontal update samples the reach animation is started
    once per crossing, not once per sample above 1.  A sample starts it (500 ms,
    from 0 to 1, followed by one haptic call) exactly when it arrives with
    [reached] false and a ratio [>= 1]; over a run the starts are as many as
    such samples, each with its one haptic call; and over a run whose ratios
    all stay at or above the reset floor there is one start if the flag was
    false and some ratio is [>= 1], and none otherwise. *)
Theorem reach_animation_once_per_crossing (samples : list (Z * UpdateArgs.t))
  (s : State.t Action) :
  State.started s = true ->
  State.orientation s = Some Horizontal ->
  Forall (fun p => UpdateArgs.touch (snd p) = State.touch s) samples ->
  (forall (cursorPosY : Z) (args : UpdateArgs.t),
     UpdateArgs.touch args = State.touch s ->
     reachFeedback (calls (updateWith cursorPosY args) s) =
       if negb (State.reached s) && ge (ratioOf args) 1
       then [Call.animationReach_start 0 1 500; Call.Haptic] else [])
  /\ reachFeedback (calls (updateWithAll samples) s) =
       concat (repeat [Call.animationReach_start 0 1 500; Call.Haptic]
                 (crossings (State.reached s)
                    (map (fun p => ratioOf (snd p)) samples)))
  /\ (Forall (fun p => ge (ratioOf (snd p)) 0.95 = true) samples ->
      reachFeedback (calls (updateWithAll samples) s) =
        if negb (State.reached s)
           && existsb (fun p => ge (ratioOf (snd p)) 1) samples
        then [Call.animationReach_start 0 1 500; Call.Haptic] else []).
Proof.
  intros Hs Ho Hall. split; [|split].
  - intros c a Ht.
    destruct (updateWith_horizontal_step c a s Hs (eq_sym Ht) Ho)
      as (_ & _ & _ & _ & _ & Hfb).
    exact Hfb.
  - exact (updateWithAll_feedback samples s Hs Ho Hall).
  - intros Hfloor.
    rewrite (updateWithAll_feedback samples s Hs Ho Hall).
    rewrite crossings_above_floor.
    + rewrite existsb_over_map.
      destruct (negb (State.reached s)
                && existsb (fun p => ge (ratioOf (snd p)) 1) samples);
        reflexivity.
    + apply Forall_map. exact Hfloor.
Qed.

(** ** The event filter *)

Lemma bind_ret_eq {A B : Type} (m : M A) (b : B) (s : State.t Action) :
  (m ;; ret b) s = (b, final m s, calls m s).
Proof.
  unfold bind, ret, final, calls. destruct (m s) as [[a s1] c1].
  cbn [fst snd]. rewrite app_nil_r. reflexivity.
Qed.

Lemma bind_get_eq {B : Type} (k : State.t Action -> M B) (s : State.t Action) :
  (state <- get ;; k state) s = k s s.
Proof.
  unfold bind, get. destruct (k s s) as [[b s2] c2]. reflexivity.
Qed.

Lemma filter_handling (cursorPosY : Z) (e : QEvent) (s : State.t Action) :
  final (filter cursorPosY e) s = final (handle cursorPosY (handling e s)) s
  /\ calls (filter cursorPosY e) s = calls (handle cursorPosY (handling e s)) s.
Proof.
  destruct e as [|pos_y|type device touches|phase buttons d|];
    unfold final at 1, calls at 1, filter, handling.
  - rewrite bind_get_eq, bind_ret_eq. cbn [fst snd].
    destruct (isSet (State.orientation s)); split; reflexivity.
  - rewrite bind_get_eq, bind_ret_eq. cbn [fst snd].
    destruct (isSet (State.orientation s)); cbn [andb];
      [destruct (Z.abs (pos_y - State.cursorTop s) >? startDragDistance)%Z|];
      split; reflexivity.
  - destruct (negb IsMac && negb (isTouchScreen device)); [split; reflexivity|].
    rewrite bind_get_eq, bind_ret_eq. cbn [fst snd].
    destruct (touchCancel type (isTouchScreen device) touches);
      split; reflexivity.
  - destruct (IsMac || ScrollPhase_eqb phase NoScrollPhase); [split; reflexivity|].
    rewrite bind_get_eq, bind_ret_eq. cbn [fst snd].
    destruct (wheelCancel buttons phase); split; reflexivity.
  - split; reflexivity.
Qed.

(** The filter reads [touches[0]] for an update only when there is one. *)
Lemma update_needs_touch (type : TouchType) (touchscreen : bool)
  (touches : list TouchPoint.t) :
  touchCancel type touchscreen touches = false -> touches <> [].
Proof.
  intros H E. subst touches. unfold touchCancel in H. cbn in H.
  destruct touchscreen; cbn in H; discriminate H.
Qed.

(** C10.  A touch event (begin, update, end or cancel) that the handler accepts
    (on macOS, or from a touchscreen device) makes the filter return [Cancel],
    whether it fed an update or ended the gesture; every other event, and a
    touch event on another platform from a device that is no touchscreen,
    makes it return [Continue]. *)
Theorem filter_result (cursorPosY : Z) (e : QEvent) (s : State.t Action) :
  result (filter cursorPosY e) s =
    match e with
    | Touch _ device _ =>
        if IsMac || isTouchScreen device then Cancel else Continue
    | _ => Continue
    end.
Proof.
  destruct e as [|pos_y|type device touches|phase buttons d|];
    unfold result, filter.
  - rewrite bind_get_eq, bind_ret_eq. reflexivity.
  - rewrite bind_get_eq, bind_ret_eq. reflexivity.
  - destruct IsMac, (isTouchScreen device); cbn [negb andb orb];
      try reflexivity; rewrite bind_get_eq, bind_ret_eq; reflexivity.
  - destruct (IsMac || ScrollPhase_eqb phase NoScrollPhase); [reflexivity|].
    rewrite bind_get_eq, bind_ret_eq. reflexivity.
  - reflexivity.
Qed.

Lemma wheelCancel_true (buttons : Z) (phase : ScrollPhase) :
  wheelCancel buttons phase = true
  <-> buttons <> 0%Z \/ phase = ScrollEnd \/ phase = ScrollMomentum.
Proof.
  unfold wheelCancel. split.
  - intros H. destruct (Z.eqb_spec buttons 0) as [E|E]; [|left; exact E].
    right. destruct phase; cbn in H; try discriminate H; auto.
  - intros [H|[H|H]].
    + destruct (Z.eqb_spec buttons 0) as [E|E]; [contradiction|reflexivity].
    + subst phase. cbn. destruct (negb (buttons =? 0)%Z); reflexivity.
    + subst phase. cbn. destruct (negb (buttons =? 0)%Z); reflexivity.
Qed.

Lemma processEnd_keeps (delta : option QPointF.t) (s : State.t Action) :
  State.startAt (final (processEnd delta) s) = State.startAt s
  /\ State.delta (final (processEnd delta) s) = State.delta s
  /\ State.cursorTop (final (processEnd delta) s) = State.cursorTop s
  /\ State.touch (final (processEnd delta) s) = State.touch s
  /\ State.finishByTopData (final (processEnd delta) s) = State.finishByTopData s
  /\ updates (calls (processEnd delta) s) = []
  /\ resolverCalls (calls (processEnd delta) s) = [].
Proof.
  unfold final, calls. destruct (isHorizontal (State.orientation s)) eqn:H.
  - rewrite (processEnd_horizontal_eq delta s H). cbn [fst snd].
    rewrite updates_app, resolverCalls_app.
    destruct (ge (finalRatio delta s) 1);
      [destruct (SwipeHandlerFinishData.callback (State.finishByTopData s))|];
      cbn; repeat split.
  - rewrite (processEnd_not_horizontal_eq delta s H). cbn. repeat split.
Qed.

(** C8 (as amended).  A wheel event with a mouse button held, or whose phase is
    scroll-end or momentum, never feeds an update sample.  On macOS, or when the
    event has no scroll phase, the filter ignores it: no call is made and the
    state is unchanged.  Otherwise the filter treats it as a cancel: it runs
    [processEnd()] with no override delta, which ends the gesture (and so does
    change the state) but emits no update notification, does not query the
    resolver, and keeps the start position, delta, cursor top, source type and
    finish data. The filter returns [Continue] either way. *)
Theorem wheel_cancel_ends_gesture (cursorPosY : Z) (phase : ScrollPhase)
  (buttons : Z) (ScrollDelta : QPointF.t) (s : State.t Action) :
  buttons <> 0%Z \/ phase = ScrollEnd \/ phase = ScrollMomentum ->
  filter cursorPosY (Wheel phase buttons ScrollDelta) s =
    (if IsMac || ScrollPhase_eqb phase NoScrollPhase
     then (Continue, s, [])
     else (Continue, final (processEnd None) s, calls (processEnd None) s))
  /\ updates (calls (filter cursorPosY (Wheel phase buttons ScrollDelta)) s) = []
  /\ resolverCalls (calls (filter cursorPosY (Wheel phase buttons ScrollDelta)) s) = []
  /\ State.delta (final (filter cursorPosY (Wheel phase buttons ScrollDelta)) s)
     = State.delta s
  /\ State.startAt (final (filter cursorPosY (Wheel phase buttons ScrollDelta)) s)
     = State.startAt s
  /\ State.cursorTop (final (filter cursorPosY (Wheel phase buttons ScrollDelta)) s)
     = State.cursorTop s
  /\ State.touch (final (filter cursorPosY (Wheel phase buttons ScrollDelta)) s)
     = State.touch s
  /\ State.finishByTopData
       (final (filter cursorPosY (Wheel phase buttons ScrollDelta)) s)
     = State.finishByTopData s.
Proof.
  intros H. apply wheelCancel_true in H.
  assert (E : filter cursorPosY (Wheel phase buttons ScrollDelta) s =
              if IsMac || ScrollPhase_eqb phase NoScrollPhase
              then (Continue, s, [])
              else (Continue, final (processEnd None) s, calls (processEnd None) s)).
  { unfold filter.
    destruct (IsMac || ScrollPhase_eqb phase NoScrollPhase); [reflexivity|].
    rewrite bind_get_eq, H. apply bind_ret_eq. }
  split; [exact E|].
  unfold final at 1 2 3 4 5, calls at 1 2. rewrite E.
  destruct (IsMac || ScrollPhase_eqb phase NoScrollPhase); cbn [fst snd].
  - repeat split.
  - destruct (processEnd_keeps None s) as (H1 & H2 & H3 & H4 & H5 & H6 & H7).
    repeat split; assumption.
Qed.

(** ** Update notifications *)

Lemma updateData_clampedFrom (r : float64) (s : State.t Action) :
  clampedFrom r (updateData r s).
Proof. unfold clampedFrom, updateData. cbn. split; reflexivity. Qed.

Lemma updateRatio_eq (r : float64) (s : State.t Action) :
  updateRatio r s = (tt, s, [Call.update (updateData r s)]).
Proof. reflexivity. Qed.

Lemma updateWith_updates (cursorPosY : Z) (args : UpdateArgs.t) (s : State.t Action) :
  updates (calls (updateWith cursorPosY args) s) =
    if negb (firstSample s args) && isHorizontal (State.orientation s)
    then [updateData (ratioOf args) (State.set_delta (UpdateArgs.delta args) s)]
    else [].
Proof.
  unfold calls. destruct (firstSample s args) eqn:Hf.
  - rewrite (updateWith_first_eq _ _ _ Hf). cbn [negb andb].
    destruct (isSet _); reflexivity.
  - cbn [negb andb]. destruct (State.orientation s) as [[|]|] eqn:Ho.
    + rewrite (updateWith_horizontal_eq _ _ _ Hf Ho). cbn zeta.
      destruct (negb (State.reached s) && ge (ratioOf args) 1);
        [reflexivity|].
      destruct (State.reached s && lt (ratioOf args) kResetReachedOn);
        reflexivity.
    + rewrite (updateWith_vertical_eq _ _ _ Hf Ho). reflexivity.
    + rewrite (updateWith_undetermined_eq _ _ _ Hf Ho). reflexivity.
Qed.

Lemma handle_updates (cursorPosY : Z) (h : Handling) (s : State.t Action) :
  Forall (clampedFrom
            (QPointF.x (State.delta (final (handle cursorPosY h) s))
             / threshold)%float)
         (updates (calls (handle cursorPosY h) s)).
Proof.
  destruct h as [|delta|args]; cbn [handle].
  - constructor.
  - destruct (processEnd_keeps delta s) as (_ & _ & _ & _ & _ & H & _).
    rewrite H. constructor.
  - rewrite updateWith_updates.
    destruct (firstSample s args) eqn:Hf; cbn [negb andb]; [constructor|].
    destruct (isHorizontal (State.orientation s)) eqn:Ho; [|constructor].
    apply firstSample_false in Hf. destruct Hf as [Hs Ht].
    apply isHorizontal_true in Ho.
    destruct (updateWith_horizontal_step cursorPosY args s Hs Ht Ho)
      as (_ & _ & _ & Hd & _).
    rewrite Hd. constructor; [|constructor].
    apply (updateData_clampedFrom (ratioOf args)).
Qed.

Lemma run_event_eq (cursorPosY : Z) (e : QEvent) (s : State.t Action) :
  final (run (OnEvent cursorPosY e)) s
  = final (handle cursorPosY (handling e s)) s
  /\ calls (run (OnEvent cursorPosY e)) s
     = calls (handle cursorPosY (handling e s)) s.
Proof.
  destruct (filter_handling cursorPosY e s) as [Hf Hc].
  cbn [run]. rewrite final_bind, calls_bind.
  change (calls (ret tt) (final (filter cursorPosY e) s))
    with (@nil (Call.t Action)).
  rewrite app_nil_r. split; assumption.
Qed.

(** C6 (as amended).  Every update notification carries as [ratio] the
    unclamped value handed to [updateRatio], clamped to [[0, 1.5]], and as
    [translation] the rounded value of [-clamp(ratio, 0, 1.5) * threshold]:
    this is what [updateRatio] emits for a value [r] (and the emitted ratio
    does lie in [[0, 1.5]] when [r] is a number).  For every entry point that
    value is known: on a tick of the end animation it is the animated value
    the animation passes to its callback, and in every other case (a
    horizontal update sample, a tick of the reach animation) it is the live
    [delta.x / threshold].  The ratio handed to the end animation by
    [processEnd] is the quotient itself, not clamped. *)
Theorem update_notification_clamped :
  (forall (r : float64) (s : State.t Action),
     exists d,
       calls (updateRatio r) s = [Call.update d]
       /\ ChatPaintGestureHorizontalData.ratio d = clamp r 0 1.5
       /\ ChatPaintGestureHorizontalData.translation d =
            int_of_float64 (SafeRound (- clamp r 0 1.5 * threshold)%float)
       /\ (is_nan r = false ->
           le 0 (ChatPaintGestureHorizontalData.ratio d) = true
           /\ le (ChatPaintGestureHorizontalData.ratio d) 1.5 = true))
  /\ (forall (en : Entry) (s : State.t Action),
        Forall (clampedFrom (internalRatio en s)) (updates (calls (run en) s)))
  /\ (forall (handle : Simple.t) (value : float64) (s : State.t Action),
        exists d,
          updates (calls (run (OnEndTick handle value)) s) = [d]
          /\ clampedFrom value d)
  /\ (forall (cursorPosY : Z) (args : UpdateArgs.t) (s : State.t Action),
        State.started s = true ->
        State.touch s = UpdateArgs.touch args ->
        State.orientation s = Some Horizontal ->
        exists d,
          updates (calls (updateWith cursorPosY args) s) = [d]
          /\ clampedFrom (QPointF.x (UpdateArgs.delta args) / threshold)%float d)
  /\ (forall s : State.t Action,
        exists d,
          calls animationReachCallback s = [Call.update d]
          /\ clampedFrom (QPointF.x (State.delta s) / threshold)%float d)
  /\ (forall (delta : option QPointF.t) (s : State.t Action),
        State.orientation s = Some Horizontal ->
        In (Call.animationEnd_start
              (QPointF.x (value_or delta (State.delta s)) / threshold)%float
              0 slideWrapDuration)
           (calls (processEnd delta) s)).
Proof.
  split; [|split; [|split; [|split; [|split]]]].
  - intros r s. exists (updateData r s). unfold calls.
    rewrite updateRatio_eq. cbn [snd].
    split; [reflexivity|]. split; [reflexivity|]. split; [reflexivity|].
    intros Hnan. cbn [updateData ChatPaintGestureHorizontalData.ratio].
    apply clamp_bounds; try assumption; reflexivity.
  - intros en s. destruct en as [c e| |h|h v]; unfold internalRatio.
    + destruct (run_event_eq c e s) as [Hf Hc]. rewrite Hf, Hc.
      apply handle_updates.
    + exact (handle_updates 0%Z (Ends None) s).
    + cbn [run]. rewrite calls_bind.
      change (calls (modify (State.set_animationReach h)) s)
        with (@nil (Call.t Action)).
      cbn [app]. constructor; [|constructor].
      apply (updateData_clampedFrom
               (QPointF.x (State.delta s) / threshold)%float
               (State.set_animationReach h s)).
    + cbn [run]. rewrite calls_bind.
      change (calls (modify (State.set_animationEnd h)) s)
        with (@nil (Call.t Action)).
      cbn [app]. constructor; [|constructor].
      apply (updateData_clampedFrom v (State.set_animationEnd h s)).
  - intros h v s. exists (updateData v (State.set_animationEnd h s)).
    split; [reflexivity|]. apply updateData_clampedFrom.
  - intros c args s Hs Ht Ho. rewrite updateWith_updates.
    assert (Hf : firstSample s args = false)
      by (apply firstSample_false; split; assumption).
    rewrite Hf, Ho. cbn [negb andb isHorizontal].
    eexists. split; [reflexivity|]. apply updateData_clampedFrom.
  - intros s. eexists. split; [reflexivity|].
    apply (updateData_clampedFrom (QPointF.x (State.delta s) / threshold)%float s).
  - intros delta s Ho. apply isHorizontal_true in Ho. unfold calls.
    rewrite (processEnd_horizontal_eq delta s Ho). cbn [snd].
    apply in_or_app. right. unfold finalRatio. cbn. auto.
Qed.

(** ** The start of a gesture *)

Lemma processEnd_clears (delta : option QPointF.t) (s : State.t Action) :
  State.orientation (final (processEnd delta) s) = None
  /\ State.started (final (processEnd delta) s) = false
  /\ State.reached (final (processEnd delta) s) = false.
Proof.
  unfold final. destruct (isHorizontal (State.orientation s)) eqn:H.
  - rewrite (processEnd_horizontal_eq delta s H). cbn. auto.
  - rewrite (processEnd_not_horizontal_eq delta s H). cbn. auto.
Qed.

(** After any update sample a gesture is in progress, with the sample's source
    type. *)
Lemma updateWith_started (cursorPosY : Z) (args : UpdateArgs.t) (s : State.t Action) :
  State.started (final (updateWith cursorPosY args) s) = true
  /\ State.touch (final (updateWith cursorPosY args) s) = UpdateArgs.touch args.
Proof.
  unfold final. destruct (firstSample s args) eqn:Hf.
  - rewrite (updateWith_first_eq _ _ _ Hf). destruct (isSet _); cbn; auto.
  - pose proof Hf as Hf'. apply firstSample_false in Hf'. destruct Hf' as [Hs Ht].
    destruct (State.orientation s) as [[|]|] eqn:Ho.
    + rewrite (updateWith_horizontal_eq _ _ _ Hf Ho). cbn zeta.
      destruct (negb (State.reached s) && ge (ratioOf args) 1);
        [cbn; auto|].
      destruct (State.reached s && lt (ratioOf args) kResetReachedOn);
        cbn; auto.
    + rewrite (updateWith_vertical_eq _ _ _ Hf Ho). cbn. auto.
    + rewrite (updateWith_undetermined_eq _ _ _ Hf Ho). cbn. auto.
Qed.

(** A later sample of the same source type does not query the resolver. *)
Lemma updateWith_later_no_query (cursorPosY : Z) (args : UpdateArgs.t)
  (s : State.t Action) :
  firstSample s args = false ->
  resolverCalls (calls (updateWith cursorPosY args) s) = [].
Proof.
  intros Hf. unfold calls. destruct (State.orientation s) as [[|]|] eqn:Ho.
  - rewrite (updateWith_horizontal_eq _ _ _ Hf Ho). cbn zeta.
    destruct (negb (State.reached s) && ge (ratioOf args) 1);
      [reflexivity|].
    destruct (State.reached s && lt (ratioOf args) kResetReachedOn);
      reflexivity.
  - rewrite (updateWith_vertical_eq _ _ _ Hf Ho). reflexivity.
  - rewrite (updateWith_undetermined_eq _ _ _ Hf Ho). reflexivity.
Qed.

Lemma updateWithAll_later_no_query (rest : list (Z * UpdateArgs.t)) :
  forall (s : State.t Action),
  State.started s = true ->
  Forall (fun p => UpdateArgs.touch (snd p) = State.touch s) rest ->
  resolverCalls (calls (updateWithAll rest) s) = [].
Proof.
  induction rest as [|[c a] rest IH]; intros s Hs Hall.
  - reflexivity.
  - inversion Hall as [|p l Ht Hrest]; subst. cbn [snd] in Ht.
    assert (Hf : firstSample s a = false)
      by (apply firstSample_false; split; [assumption|symmetry; assumption]).
    cbn [updateWithAll]. rewrite calls_bind, resolverCalls_app.
    rewrite (updateWith_later_no_query c a s Hf). cbn [app].
    destruct (updateWith_started c a s) as [Hs' Ht'].
    apply IH; [assumption|]. rewrite Ht', Ht. exact Hrest.
Qed.

(** While no gesture is in progress the orientation is unset. *)
Lemma reachable_idle_unset (s : State.t Action) :
  reachable s -> State.started s = false -> State.orientation s = None.
Proof.
  induction 1 as [|en s Hr IH]; [reflexivity|].
  assert (Hh : forall c h,
             State.started (final (handle c h) s) = false ->
             State.orientation (final (handle c h) s) = None).
  { intros c [|delta|args]; cbn [handle].
    - exact IH.
    - intros _. apply processEnd_clears.
    - intros H. destruct (updateWith_started c args s) as [Hs _]. congruence. }
  destruct en as [c e| |h|h v].
  - destruct (run_event_eq c e s) as [Hf _]. rewrite Hf. apply Hh.
  - exact (Hh 0%Z (Ends None)).
  - exact IH.
  - exact IH.
Qed.

(** Handling a batch of events leads from reachable states to reachable ones. *)
Lemma reachable_filterAll (events : list (Z * QEvent)) :
  forall s : State.t Action,
  reachable s -> reachable (final (filterAll events) s).
Proof.
  induction events as [|[c e] rest IH]; intros s Hs.
  - exact Hs.
  - cbn [filterAll]. rewrite final_bind. apply IH.
    replace (final (filter c e) s) with (final (run (OnEvent c e)) s).
    + apply reachable_run. exact Hs.
    + cbn [run]. rewrite final_bind. reflexivity.
Qed.

(** C7 (as amended).  On the first update of a new gesture (no gesture in
    progress, or a change of source type) the recogniser marks the gesture
    started, records the source type, seeds the start position, zeroes the
    delta, captures the cursor top and queries the resolver with it, exactly
    once; later samples of the same source type do not query it again, nor does
    [processEnd].  If the resolver yields no action the orientation is set to
    vertical at once.  If it yields one, the orientation is left as it was:
    the gesture is in the undetermined state whenever the orientation was unset
    before, as it always is when the gesture starts from idle (no gesture in
    progress); only an orientation already decided before a change of source
    type is kept. *)
Theorem first_update_starts_gesture (cursorPosY : Z) (args : UpdateArgs.t)
  (rest : list (Z * UpdateArgs.t)) (s : State.t Action) :
  reachable s ->
  State.started s = false \/ State.touch s <> UpdateArgs.touch args ->
  Forall (fun p => UpdateArgs.touch (snd p) = UpdateArgs.touch args) rest ->
  (State.started (final (updateWith cursorPosY args) s) = true
   /\ State.touch (final (updateWith cursorPosY args) s) = UpdateArgs.touch args
   /\ State.startAt (final (updateWith cursorPosY args) s) = UpdateArgs.position args
   /\ State.delta (final (updateWith cursorPosY args) s) = QPointF.null
   /\ State.cursorTop (final (updateWith cursorPosY args) s) = cursorPosY
   /\ State.finishByTopData (final (updateWith cursorPosY args) s)
      = generateFinishByTop cursorPosY)
  /\ resolverCalls (calls (updateWith cursorPosY args) s) = [cursorPosY]
  /\ resolverCalls (calls (updateWithAll ((cursorPosY, args) :: rest)) s)
     = [cursorPosY]
  /\ (forall (delta : option QPointF.t) (st : State.t Action),
        resolverCalls (calls (processEnd delta) st) = [])
  /\ (SwipeHandlerFinishData.callback (generateFinishByTop cursorPosY) = None ->
      State.orientation (final (updateWith cursorPosY args) s) = Some Vertical)
  /\ (SwipeHandlerFinishData.callback (generateFinishByTop cursorPosY) <> None ->
      State.started s = false ->
      State.orientation (final (updateWith cursorPosY args) s) = None)
  /\ (SwipeHandlerFinishData.callback (generateFinishByTop cursorPosY) <> None ->
      State.orientation s = None ->
      State.orientation (final (updateWith cursorPosY args) s) = None)
  /\ (SwipeHandlerFinishData.callback (generateFinishByTop cursorPosY) <> None ->
      State.orientation (final (updateWith cursorPosY args) s)
      = State.orientation s).
Proof.
  intros Hreach Hfirst Hrest. apply firstSample_true in Hfirst.
  assert (Hq : resolverCalls (calls (updateWith cursorPosY args) s) = [cursorPosY]).
  { unfold calls. rewrite (updateWith_first_eq _ _ _ Hfirst).
    destruct (isSet _); reflexivity. }
  assert (Ho : SwipeHandlerFinishData.callback (generateFinishByTop cursorPosY)
               <> None ->
               State.orientation (final (updateWith cursorPosY args) s)
               = State.orientation s).
  { intros Hcb. unfold final. rewrite (updateWith_first_eq _ _ _ Hfirst).
    destruct (SwipeHandlerFinishData.callback (generateFinishByTop cursorPosY));
      [reflexivity|contradiction]. }
  split; [|split; [|split; [|split; [|split; [|split; [|split]]]]]].
  - unfold final. rewrite (updateWith_first_eq _ _ _ Hfirst).
    destruct (isSet _); cbn; repeat split.
  - exact Hq.
  - cbn [updateWithAll]. rewrite calls_bind, resolverCalls_app, Hq.
    destruct (updateWith_started cursorPosY args s) as [Hs' Ht'].
    rewrite updateWithAll_later_no_query; [reflexivity|assumption|].
    rewrite Ht'. exact Hrest.
  - intros delta st. apply processEnd_keeps.
  - intros Hnone. unfold final. rewrite (updateWith_first_eq _ _ _ Hfirst).
    rewrite Hnone. reflexivity.
  - intros Hcb Hidle. rewrite (Ho Hcb).
    exact (reachable_idle_unset s Hreach Hidle).
  - intros Hcb Hunset. rewrite (Ho Hcb). exact Hunset.
  - exact Ho.
Qed.

(** ** Invariants of the handler *)

Lemma run_tick_final (s : State.t Action) :
  (forall h, final (run (OnReachTick h)) s = State.set_animationReach h s)
  /\ (forall h v, final (run (OnEndTick h v)) s = State.set_animationEnd h s).
Proof. split; intros; reflexivity. Qed.

Lemma run_scroll_eq (s : State.t Action) :
  final (run OnScroll) s = final (processEnd None) s
  /\ calls (run OnScroll) s = calls (processEnd None) s.
Proof. split; reflexivity. Qed.

(** A property kept by [processEnd], by [updateWith] and by the engine's
    steps of the two handles is kept by every entry point. *)
Lemma run_preserves (P : State.t Action -> Prop) :
  (forall s delta, P s -> P (final (processEnd delta) s)) ->
  (forall s c args, P s -> P (final (updateWith c args) s)) ->
  (forall s h, P s -> P (State.set_animationReach h s)) ->
  (forall s h, P s -> P (State.set_animationEnd h s)) ->
  forall en s, P s -> P (final (run en) s).
Proof.
  intros Hend Hupd Hreach Hfin en s Hs.
  destruct en as [c e| |h|h v].
  - destruct (run_event_eq c e s) as [Hf _]. rewrite Hf.
    destruct (handling e s) as [|delta|args]; cbn [handle].
    + exact Hs.
    + apply Hend. exact Hs.
    + apply Hupd. exact Hs.
  - apply (Hend s None Hs).
  - apply (Hreach s h Hs).
  - apply (Hfin s h Hs).
Qed.

Lemma reachable_preserves (P : State.t Action -> Prop) :
  P State.initial ->
  (forall s delta, P s -> P (final (processEnd delta) s)) ->
  (forall s c args, P s -> P (final (updateWith c args) s)) ->
  (forall s h, P s -> P (State.set_animationReach h s)) ->
  (forall s h, P s -> P (State.set_animationEnd h s)) ->
  forall s, reachable s -> P s.
Proof.
  intros H0 Hend Hupd Hreach Hfin s Hs.
  induction Hs as [|en s Hs IH]; [exact H0|].
  apply run_preserves; assumption.
Qed.

(** The fields of the state after an update sample, by branch. *)
Lemma updateWith_final_cases (c : Z) (args : UpdateArgs.t) (s : State.t Action) :
  (firstSample s args = true
   /\ ((SwipeHandlerFinishData.callback (generateFinishByTop c) <> None
        /\ final (updateWith c args) s = seeded c args s)
       \/ (SwipeHandlerFinishData.callback (generateFinishByTop c) = None
           /\ final (updateWith c args) s
              = State.set_orientation (Some Vertical) (seeded c args s))))
  \/ (firstSample s args = false /\ State.orientation s = None
      /\ final (updateWith c args) s
         = State.set_orientation (classify args)
             (State.set_delta (UpdateArgs.delta args) s))
  \/ (firstSample s args = false /\ State.orientation s = Some Horizontal
      /\ exists r : bool,
           final (updateWith c args) s
           = State.set_reached r (State.set_delta (UpdateArgs.delta args) s)
           \/ final (updateWith c args) s
              = State.set_animationReach
                  (Simple.start 0 1 kBounceDuration Simple.idle)
                  (State.set_reached true
                     (State.set_delta (UpdateArgs.delta args) s)))
  \/ (firstSample s args = false /\ State.orientation s = Some Vertical
      /\ final (updateWith c args) s = s).
Proof.
  unfold final. destruct (firstSample s args) eqn:Hf.
  - left. split; [reflexivity|]. rewrite (updateWith_first_eq _ _ _ Hf).
    destruct (SwipeHandlerFinishData.callback (generateFinishByTop c)) as [cb|];
      cbn [isSet fst snd].
    + left. split; [discriminate|reflexivity].
    + right. split; reflexivity.
  - right. destruct (State.orientation s) as [[|]|] eqn:Ho.
    + right. left. split; [reflexivity|]. split; [reflexivity|].
      rewrite (updateWith_horizontal_eq _ _ _ Hf Ho). cbn zeta.
      destruct (negb (State.reached s) && ge (ratioOf args) 1).
      * exists true. right. reflexivity.
      * destruct (State.reached s && lt (ratioOf args) kResetReachedOn).
        -- exists false. left. reflexivity.
        -- exists (State.reached s). left. cbn [fst snd].
           destruct s; reflexivity.
    + right. right. split; [reflexivity|]. split; [reflexivity|].
      rewrite (updateWith_vertical_eq _ _ _ Hf Ho). reflexivity.
    + left. split; [reflexivity|]. split; [reflexivity|].
      rewrite (updateWith_undetermined_eq _ _ _ Hf Ho). reflexivity.
Qed.

(** X1.  Whenever no gesture is in progress ([started] is false), in any
    state the handler can reach, the orientation is unset and [reached] is
    false: nothing of an ended gesture is left for the next one. *)
Theorem idle_state_is_clean (s : State.t Action) :
  reachable s ->
  State.started s = false ->
  State.orientation s = None /\ State.reached s = false.
Proof.
  revert s.
  apply (reachable_preserves
           (fun s => State.started s = false ->
                     State.orientation s = None /\ State.reached s = false)).
  - intros _. split; reflexivity.
  - intros s delta _ _.
    destruct (processEnd_clears delta s) as (Ho & _ & Hr). split; assumption.
  - intros s c args _ H.
    destruct (updateWith_started c args s) as [Hs _]. congruence.
  - intros s h IH H. exact (IH H).
  - intros s h IH H. exact (IH H).
Qed.

(** The resolver's action is present whenever a gesture is tracked
    horizontally, and whenever it is still undetermined. *)
Lemma tracked_gesture_has_action (s : State.t Action) :
  reachable s ->
  (State.orientation s = Some Horizontal ->
   SwipeHandlerFinishData.callback (State.finishByTopData s) <> None)
  /\ (State.started s = true -> State.orientation s = None ->
      SwipeHandlerFinishData.callback (State.finishByTopData s) <> None).
Proof.
  revert s.
  apply (reachable_preserves
           (fun s =>
              (State.orientation s = Some Horizontal ->
               SwipeHandlerFinishData.callback (State.finishByTopData s) <> None)
              /\ (State.started s = true -> State.orientation s = None ->
                  SwipeHandlerFinishData.callback (State.finishByTopData s)
                  <> None))).
  - split; intros H; discriminate H.
  - intros s delta _.
    destruct (processEnd_clears delta s) as (Ho & Hs & _).
    split; intros H; congruence.
  - intros s c args [IH1 IH2].
    destruct (updateWith_final_cases c args s)
      as [[Hf [[Hcb E]|[Hcb E]]]
         |[(Hf & Ho & E)|[(Hf & Ho & r & [E|E])|(Hf & Ho & E)]]];
      rewrite E; cbn.
    + split; intros; exact Hcb.
    + split; intros; discriminate.
    + apply firstSample_false in Hf. destruct Hf as [Hs _].
      split; intros; exact (IH2 Hs Ho).
    + split; intros; exact (IH1 Ho).
    + split; intros; exact (IH1 Ho).
    + split; assumption.
  - intros s h IH. exact IH.
  - intros s h IH. exact IH.
Qed.

(** X2.  A gesture that is tracked horizontally always has a completion
    action: in every reachable state with horizontal orientation the resolver's
    action is present, so ending it with a final ratio [>= 1] always schedules
    that action, exactly once. *)
Theorem horizontal_gesture_has_action (s : State.t Action) :
  reachable s ->
  State.orientation s = Some Horizontal ->
  exists cb : Action,
    SwipeHandlerFinishData.callback (State.finishByTopData s) = Some cb
    /\ forall delta : option QPointF.t,
         ge (finalRatio delta s) 1 = true ->
         postponed (calls (processEnd delta) s) = [cb].
Proof.
  intros Hr Ho.
  destruct (tracked_gesture_has_action s Hr) as [H _]. specialize (H Ho).
  destruct (SwipeHandlerFinishData.callback (State.finishByTopData s))
    as [cb|] eqn:Hcb; [|contradiction].
  exists cb. split; [reflexivity|]. intros delta Hge.
  rewrite processEnd_postponed. apply isHorizontal_true in Ho.
  rewrite Ho, Hge, Hcb. reflexivity.
Qed.

(** ** The scroll area and the orientation *)

Lemma scrollDisabled_app (l1 l2 : list (Call.t Action)) (d : bool) :
  scrollDisabled (l1 ++ l2) d = scrollDisabled l2 (scrollDisabled l1 d).
Proof. unfold scrollDisabled. apply fold_left_app. Qed.

Lemma touchAccepted_app (l1 l2 : list (Call.t Action)) (d : bool) :
  touchAccepted (l1 ++ l2) d = touchAccepted l2 (touchAccepted l1 d).
Proof. unfold touchAccepted. apply fold_left_app. Qed.

Lemma processEnd_scroll (delta : option QPointF.t) (s : State.t Action) (d a : bool) :
  scrollDisabled (calls (processEnd delta) s) d = false
  /\ touchAccepted (calls (processEnd delta) s) a = true.
Proof.
  unfold calls. destruct (isHorizontal (State.orientation s)) eqn:H.
  - rewrite (processEnd_horizontal_eq delta s H). cbn [snd].
    rewrite scrollDisabled_app, touchAccepted_app. split; reflexivity.
  - rewrite (processEnd_not_horizontal_eq delta s H). split; reflexivity.
Qed.

Lemma updateWith_scroll (c : Z) (args : UpdateArgs.t) (s : State.t Action) :
  scrollDisabled (calls (updateWith c args) s) (isHorizontal (State.orientation s))
  = isHorizontal (State.orientation (final (updateWith c args) s))
  /\ touchAccepted (calls (updateWith c args) s)
       (negb (isHorizontal (State.orientation s)))
     = negb (isHorizontal (State.orientation (final (updateWith c args) s))).
Proof.
  unfold final, calls. destruct (firstSample s args) eqn:Hf.
  - rewrite (updateWith_first_eq _ _ _ Hf).
    destruct (isSet _); split; reflexivity.
  - destruct (State.orientation s) as [[|]|] eqn:Ho.
    + rewrite (updateWith_horizontal_eq _ _ _ Hf Ho). cbn zeta.
      destruct (negb (State.reached s) && ge (ratioOf args) 1);
        [cbn; rewrite Ho; split; reflexivity|].
      destruct (State.reached s && lt (ratioOf args) kResetReachedOn);
        cbn; rewrite Ho; split; reflexivity.
    + rewrite (updateWith_vertical_eq _ _ _ Hf Ho). cbn. rewrite Ho.
      split; reflexivity.
    + rewrite (updateWith_undetermined_eq _ _ _ Hf Ho). split; reflexivity.
Qed.

Lemma run_scroll (en : Entry) (s : State.t Action) :
  scrollDisabled (calls (run en) s) (isHorizontal (State.orientation s))
  = isHorizontal (State.orientation (final (run en) s))
  /\ touchAccepted (calls (run en) s) (negb (isHorizontal (State.orientation s)))
     = negb (isHorizontal (State.orientation (final (run en) s))).
Proof.
  assert (Hend : forall delta,
             scrollDisabled (calls (processEnd delta) s)
               (isHorizontal (State.orientation s))
             = isHorizontal (State.orientation (final (processEnd delta) s))
             /\ touchAccepted (calls (processEnd delta) s)
                  (negb (isHorizontal (State.orientation s)))
                = negb (isHorizontal
                          (State.orientation (final (processEnd delta) s)))).
  { intros delta. destruct (processEnd_clears delta s) as (Ho & _ & _).
    rewrite Ho. apply processEnd_scroll. }
  destruct en as [c e| |h|h v].
  - destruct (run_event_eq c e s) as [Hf Hc]. rewrite Hf, Hc.
    destruct (handling e s) as [|delta|args]; cbn [handle].
    + split; reflexivity.
    + apply Hend.
    + apply updateWith_scroll.
  - apply (Hend None).
  - split; reflexivity.
  - split; reflexivity.
Qed.

(** X3.  Over any run of entry points the scroll area is kept in step with
    the orientation: starting from agreement, what it was last told is
    [disableScroll(true)] and touch acceptance off exactly when the gesture is
    tracked horizontally afterwards. *)
Theorem scroll_area_follows_orientation (ens : list Entry) (s : State.t Action) :
  scrollDisabled (calls (runAll ens) s) (isHorizontal (State.orientation s))
  = isHorizontal (State.orientation (final (runAll ens) s))
  /\ touchAccepted (calls (runAll ens) s)
       (negb (isHorizontal (State.orientation s)))
     = negb (isHorizontal (State.orientation (final (runAll ens) s))).
Proof.
  revert s. induction ens as [|en rest IH]; intros s.
  - split; reflexivity.
  - cbn [runAll]. rewrite calls_bind, final_bind.
    rewrite scrollDisabled_app, touchAccepted_app.
    destruct (run_scroll en s) as [Hd Ha]. rewrite Hd, Ha. apply IH.
Qed.

(** ** Ending a gesture *)

Lemma cleared_idle (s : State.t Action) :
  State.orientation s = None -> State.started s = false ->
  State.reached s = false -> cleared s = s.
Proof.
  destruct s. cbn. intros Ho Hs Hr. subst. reflexivity.
Qed.

(** X4.  Ending twice is ending once: a [processEnd] that follows a
    [processEnd] leaves the state as it is, schedules no action and touches no
    animation (so the end animation just started keeps running); it only
    repeats the two calls that keep scrolling enabled. *)
Theorem processEnd_twice (delta1 delta2 : option QPointF.t) (s : State.t Action) :
  final (processEnd delta2) (final (processEnd delta1) s)
  = final (processEnd delta1) s
  /\ calls (processEnd delta2) (final (processEnd delta1) s)
     = [Call.setAcceptTouchEvents true; Call.disableScroll false].
Proof.
  destruct (processEnd_clears delta1 s) as (Ho & Hs & Hr).
  assert (H : isHorizontal (State.orientation (final (processEnd delta1) s))
              = false) by (rewrite Ho; reflexivity).
  unfold final at 1, calls.
  rewrite (processEnd_not_horizontal_eq delta2 _ H). cbn [fst snd].
  split; [|reflexivity]. apply cleared_idle; assumption.
Qed.

Lemma handling_no_update (e : QEvent) (s : State.t Action) :
  feedsUpdate e = false ->
  handling e s = Ignored \/ exists delta, handling e s = Ends delta.
Proof.
  destruct e as [|pos_y|type device touches|phase buttons d|];
    unfold feedsUpdate, handling.
  - intros _. destruct (isSet (State.orientation s)); eauto.
  - intros _.
    destruct (isSet (State.orientation s)
              && (Z.abs (pos_y - State.cursorTop s) >? startDragDistance)%Z);
      eauto.
  - destruct IsMac, (isTouchScreen device); cbn [orb andb negb];
      try (intros _; left; reflexivity);
      destruct (touchCancel type _ touches); cbn [negb];
      try discriminate; eauto.
  - destruct (IsMac || ScrollPhase_eqb phase NoScrollPhase); cbn [negb andb];
      [intros _; left; reflexivity|].
    destruct (wheelCancel buttons phase); cbn [negb]; [eauto|discriminate].
  - intros _. left. reflexivity.
Qed.

Lemma run_no_update (en : Entry) (s : State.t Action) :
  isUpdateEntry en = false ->
  State.orientation s <> Some Horizontal ->
  postponed (calls (run en) s) = []
  /\ animationCalls (calls (run en) s) = []
  /\ State.orientation (final (run en) s) <> Some Horizontal.
Proof.
  intros Hen Ho.
  assert (Hend : forall delta,
             postponed (calls (processEnd delta) s) = []
             /\ animationCalls (calls (processEnd delta) s) = []
             /\ State.orientation (final (processEnd delta) s)
                <> Some Horizontal).
  { intros delta. pose proof Ho as Ho'. apply isHorizontal_false in Ho'.
    unfold final, calls. rewrite (processEnd_not_horizontal_eq delta s Ho').
    cbn. repeat split. discriminate. }
  destruct en as [c e| |h|h v]; cbn [isUpdateEntry] in Hen.
  - destruct (run_event_eq c e s) as [Hf Hc]. rewrite Hf, Hc.
    destruct (handling_no_update e s Hen) as [E|[delta E]]; rewrite E;
      cbn [handle].
    + repeat split. exact Ho.
    + apply Hend.
  - apply (Hend None).
  - repeat split. exact Ho.
  - repeat split. exact Ho.
Qed.

(** X5.  Without an update sample nothing happens to a gesture that is not
    horizontal: over any run of entry points none of which feeds
    [updateWith] (pointer leave and moves, cancelling touch and wheel events,
    scroll signals, animation ticks), no action is scheduled, no animation is
    started or stopped, and the gesture does not become horizontal. *)
Theorem no_action_without_update (ens : list Entry) (s : State.t Action) :
  State.orientation s <> Some Horizontal ->
  Forall (fun en => isUpdateEntry en = false) ens ->
  postponed (calls (runAll ens) s) = []
  /\ animationCalls (calls (runAll ens) s) = []
  /\ State.orientation (final (runAll ens) s) <> Some Horizontal.
Proof.
  intros Ho Hall. revert s Ho.
  induction Hall as [|en rest Hen _ IH]; intros s Ho.
  - repeat split. exact Ho.
  - cbn [runAll]. rewrite calls_bind, final_bind.
    destruct (run_no_update en s Hen Ho) as (Hp & Ha & Ho').
    destruct (IH _ Ho') as (Hp' & Ha' & Ho'').
    rewrite postponed_app, Hp, Hp'. unfold animationCalls in *.
    rewrite filter_app, Ha, Ha'. repeat split. exact Ho''.
Qed.

(** ** A gesture in progress *)

(** A later sample of the same source type keeps what the first one seeded,
    and an orientation that is decided. *)
Lemma updateWith_later_frame (c : Z) (args : UpdateArgs.t) (s : State.t Action) :
  firstSample s args = false ->
  State.startAt (final (updateWith c args) s) = State.startAt s
  /\ State.cursorTop (final (updateWith c args) s) = State.cursorTop s
  /\ State.finishByTopData (final (updateWith c args) s) = State.finishByTopData s
  /\ (forall o, State.orientation s = Some o ->
                State.orientation (final (updateWith c args) s) = Some o).
Proof.
  intros Hf.
  destruct (updateWith_final_cases c args s)
    as [[Hf' _]|[(_ & Ho & E)|[(_ & Ho & r & [E|E])|(_ & Ho & E)]]];
    [congruence| | | |]; rewrite E; cbn; repeat split;
    intros o Ho'; congruence.
Qed.

(** X6.  The orientation is decided once per gesture: over any run of update
    samples of the gesture's source type, a horizontal or vertical orientation
    stays what it is, and the gesture keeps its start position, cursor top,
    finish data and source type. *)
Theorem orientation_decided_once (samples : list (Z * UpdateArgs.t))
  (s : State.t Action) :
  State.started s = true ->
  Forall (fun p => UpdateArgs.touch (snd p) = State.touch s) samples ->
  State.started (final (updateWithAll samples) s) = true
  /\ State.touch (final (updateWithAll samples) s) = State.touch s
  /\ State.startAt (final (updateWithAll samples) s) = State.startAt s
  /\ State.cursorTop (final (updateWithAll samples) s) = State.cursorTop s
  /\ State.finishByTopData (final (updateWithAll samples) s)
     = State.finishByTopData s
  /\ (forall o, State.orientation s = Some o ->
                State.orientation (final (updateWithAll samples) s) = Some o).
Proof.
  revert s. induction samples as [|[c a] rest IH]; intros s Hs Hall.
  - repeat split; try assumption. intros o Ho. exact Ho.
  - inversion Hall as [|p l Ht Hrest]; subst. cbn [snd] in Ht.
    assert (Hf : firstSample s a = false)
      by (apply firstSample_false; split; [assumption|symmetry; assumption]).
    destruct (updateWith_started c a s) as [Hs' Ht'].
    destruct (updateWith_later_frame c a s Hf) as (H1 & H2 & H3 & H4).
    cbn [updateWithAll]. rewrite final_bind.
    assert (Hrest' : Forall (fun p => UpdateArgs.touch (snd p)
                                      = State.touch (final (updateWith c a) s))
                            rest)
      by (rewrite Ht', Ht; exact Hrest).
    destruct (IH _ Hs' Hrest') as (K0 & K1 & K2 & K3 & K4 & K5).
    repeat split; try congruence.
    intros o Ho. apply K5. apply H4. exact Ho.
Qed.

Lemma updateWithAll_vertical (rest : list (Z * UpdateArgs.t)) (s : State.t Action) :
  State.started s = true ->
  State.orientation s = Some Vertical ->
  Forall (fun p => UpdateArgs.touch (snd p) = State.touch s) rest ->
  updateWithAll rest s = (tt, s, []).
Proof.
  intros Hs Ho Hall. induction Hall as [|[c a] rest Ht _ IH].
  - reflexivity.
  - cbn [snd] in Ht.
    assert (Hf : firstSample s a = false)
      by (apply firstSample_false; split; [assumption|symmetry; assumption]).
    cbn [updateWithAll]. unfold bind.
    rewrite (updateWith_vertical_eq c a s Hf Ho), IH. reflexivity.
Qed.

(** X7.  A gesture for which the resolver yields no action is never tracked:
    its first sample queries the resolver and sets the orientation to vertical
    (keeping scrolling enabled), and every later sample of the same source type
    does nothing at all: no call, no update notification, no reach feedback,
    no change of state. *)
Theorem gesture_without_action_is_inert (c : Z) (args : UpdateArgs.t)
  (rest : list (Z * UpdateArgs.t)) (s : State.t Action) :
  State.started s = false \/ State.touch s <> UpdateArgs.touch args ->
  SwipeHandlerFinishData.callback (generateFinishByTop c) = None ->
  Forall (fun p => UpdateArgs.touch (snd p) = UpdateArgs.touch args) rest ->
  calls (updateWithAll ((c, args) :: rest)) s
  = [Call.generateFinishByTop_called c;
     Call.setAcceptTouchEvents true; Call.disableScroll false]
  /\ final (updateWithAll ((c, args) :: rest)) s = final (updateWith c args) s
  /\ State.orientation (final (updateWithAll ((c, args) :: rest)) s)
     = Some Vertical
  /\ State.delta (final (updateWithAll ((c, args) :: rest)) s) = QPointF.null.
Proof.
  intros Hfirst Hnone Hrest. apply firstSample_true in Hfirst.
  assert (E : updateWith c args s
              = (tt, State.set_orientation (Some Vertical) (seeded c args s),
                 [Call.generateFinishByTop_called c;
                  Call.setAcceptTouchEvents true; Call.disableScroll false])).
  { rewrite (updateWith_first_eq _ _ _ Hfirst), Hnone. reflexivity. }
  assert (R : updateWithAll rest
                (State.set_orientation (Some Vertical) (seeded c args s))
              = (tt, State.set_orientation (Some Vertical) (seeded c args s), [])).
  { apply updateWithAll_vertical; [reflexivity|reflexivity|exact Hrest]. }
  assert (W : updateWithAll ((c, args) :: rest) s
              = (tt, State.set_orientation (Some Vertical) (seeded c args s),
                 [Call.generateFinishByTop_called c;
                  Call.setAcceptTouchEvents true; Call.disableScroll false])).
  { cbn [updateWithAll]. unfold bind. rewrite E, R. reflexivity. }
  unfold final, calls. rewrite W, E. cbn. repeat split.
Qed.

(** ** Wheel and touch input *)

(** X8.  Wheel updates accumulate.  Off macOS, a wheel event with a scroll
    phase that is no cancel (no button held, phase neither scroll-end nor
    momentum) starts a gesture when none is in progress or the gesture in
    progress is a touch gesture: the delta is then zero, the event's own scroll
    delta is dropped.  During a wheel gesture that is not vertical it replaces
    the delta by the live delta minus the event's scroll delta; during a
    vertical one it changes nothing. *)
Theorem wheel_update_accumulates (c : Z) (phase : ScrollPhase) (buttons : Z)
  (ScrollDelta : QPointF.t) (s : State.t Action) :
  IsMac = false ->
  phase <> NoScrollPhase ->
  wheelCancel buttons phase = false ->
  (State.started s = false \/ State.touch s = true ->
   State.delta (final (filter c (Wheel phase buttons ScrollDelta)) s)
   = QPointF.null
   /\ State.startAt (final (filter c (Wheel phase buttons ScrollDelta)) s)
      = QPointF.null
   /\ State.touch (final (filter c (Wheel phase buttons ScrollDelta)) s) = false
   /\ State.started (final (filter c (Wheel phase buttons ScrollDelta)) s) = true)
  /\ (State.started s = true -> State.touch s = false ->
      State.orientation s <> Some Vertical ->
      State.delta (final (filter c (Wheel phase buttons ScrollDelta)) s)
      = QPointF.sub (State.delta s) ScrollDelta)
  /\ (State.started s = true -> State.touch s = false ->
      State.orientation s = Some Vertical ->
      final (filter c (Wheel phase buttons ScrollDelta)) s = s
      /\ calls (filter c (Wheel phase buttons ScrollDelta)) s = []).
Proof.
  intros Hmac Hphase Hcancel.
  destruct (filter_handling c (Wheel phase buttons ScrollDelta) s) as [Hf Hc].
  assert (Hh : handling (Wheel phase buttons ScrollDelta) s
               = Updates (UpdateArgs.make QPointF.null
                            (QPointF.sub (State.delta s) ScrollDelta) false)).
  { unfold handling. rewrite Hmac, Hcancel.
    destruct phase; try reflexivity. contradiction. }
  rewrite Hf, Hc, Hh. cbn [handle].
  set (args := UpdateArgs.make QPointF.null
                 (QPointF.sub (State.delta s) ScrollDelta) false).
  split; [|split].
  - intros Hfirst.
    assert (Hfs : firstSample s args = true).
    { apply firstSample_true. destruct Hfirst as [H|H]; [left; exact H|].
      right. rewrite H. discriminate. }
    unfold final. rewrite (updateWith_first_eq _ _ _ Hfs).
    destruct (isSet _); cbn; repeat split.
  - intros Hs Ht Ho.
    assert (Hfs : firstSample s args = false)
      by (apply firstSample_false; split; [exact Hs|exact Ht]).
    destruct (updateWith_final_cases c args s)
      as [[Hf' _]|[(_ & Ho' & E)|[(_ & Ho' & r & [E|E])|(_ & Ho' & E)]]];
      [congruence| | | |contradiction]; rewrite E; reflexivity.
  - intros Hs Ht Ho.
    assert (Hfs : firstSample s args = false)
      by (apply firstSample_false; split; [exact Hs|exact Ht]).
    unfold final, calls. rewrite (updateWith_vertical_eq _ _ _ Hfs Ho).
    split; reflexivity.
Qed.

Lemma touchCancel_false (type : TouchType) (touchscreen : bool)
  (touches : list TouchPoint.t) :
  touchCancel type touchscreen touches = false ->
  (type = TouchBegin \/ type = TouchUpdate)
  /\ (1 <= length touches <= 2)%nat
  /\ (touchscreen = true -> length touches = 1%nat)
  /\ released touches 0 = false /\ released touches 1 = false.
Proof.
  unfold touchCancel. intros H.
  apply orb_false_iff in H. destruct H as [H Hc].
  apply orb_false_iff in H. destruct H as [H He].
  apply orb_false_iff in H. destruct H as [H Hn].
  apply orb_false_iff in H. destruct H as [H0 H1].
  split; [destruct type; try discriminate; auto|].
  split; [|split; [|split; assumption]].
  - destruct touchscreen.
    + apply negb_false_iff, Nat.eqb_eq in Hn. lia.
    + apply orb_false_iff in Hn. destruct Hn as [Ha Hb].
      apply Nat.leb_gt in Ha. apply Nat.ltb_ge in Hb. lia.
  - intros ->. apply negb_false_iff, Nat.eqb_eq in Hn. exact Hn.
Qed.

(** X9.  What an accepted touch event (on macOS, or from a touchscreen) does.
    With no touch point it ends the gesture with no override delta.  When it
    is a cancel with a first point, it ends the gesture with the override delta
    start position minus that point.  Otherwise it feeds an update, and then it
    is a begin or update event with one touch point (one or two when the device
    is no touchscreen) of which none is released; the update carries the first
    point as position and start position minus it as delta. *)
Theorem touch_event_handling (c : Z) (type : TouchType)
  (device : option TouchDevice) (touches : list TouchPoint.t) (s : State.t Action) :
  IsMac = true \/ device = Some TouchScreen ->
  (touches = [] ->
   filter c (Touch type device touches) s
   = (Cancel, final (processEnd None) s, calls (processEnd None) s))
  /\ (forall p rest, touches = p :: rest ->
      touchCancel type (isTouchScreen device) touches = true ->
      filter c (Touch type device touches) s
      = (Cancel,
         final (processEnd (Some (QPointF.sub (State.startAt s) (TouchPoint.pos p)))) s,
         calls (processEnd (Some (QPointF.sub (State.startAt s) (TouchPoint.pos p)))) s))
  /\ (touchCancel type (isTouchScreen device) touches = false ->
      exists p rest,
        touches = p :: rest
        /\ (length touches <= 2)%nat
        /\ (device = Some TouchScreen -> rest = [])
        /\ (type = TouchBegin \/ type = TouchUpdate)
        /\ Z.land (TouchPoint.state p) TouchPointReleased = 0%Z
        /\ filter c (Touch type device touches) s
           = (Cancel,
              final (updateWith c
                       (UpdateArgs.make (TouchPoint.pos p)
                          (QPointF.sub (State.startAt s) (TouchPoint.pos p)) true)) s,
              calls (updateWith c
                       (UpdateArgs.make (TouchPoint.pos p)
                          (QPointF.sub (State.startAt s) (TouchPoint.pos p)) true)) s)).
Proof.
  intros Hacc.
  assert (Ha : negb IsMac && negb (isTouchScreen device) = false).
  { destruct Hacc as [H|H]; [rewrite H; reflexivity|].
    rewrite H. cbn. apply andb_false_r. }
  assert (E : filter c (Touch type device touches) s
              = (Cancel,
                 final (handle c (handling (Touch type device touches) s)) s,
                 calls (handle c (handling (Touch type device touches) s)) s)).
  { unfold filter, handling. rewrite Ha.
    rewrite bind_get_eq, bind_ret_eq.
    destruct (touchCancel type (isTouchScreen device) touches); reflexivity. }
  split; [|split].
  - intros ->. rewrite E. unfold handling. rewrite Ha.
    destruct (isTouchScreen device); reflexivity.
  - intros p rest -> Hc. rewrite E. unfold handling. rewrite Ha, Hc.
    reflexivity.
  - intros Hc.
    destruct (touchCancel_false _ _ _ Hc) as (Hty & Hlen & Hts & Hr0 & _).
    destruct touches as [|p rest]; [cbn in Hlen; lia|].
    exists p, rest. split; [reflexivity|]. split; [lia|].
    split; [|split; [exact Hty|split]].
    + intros Hd. rewrite Hd in Hts. specialize (Hts eq_refl).
      cbn in Hts. destruct rest; [reflexivity|discriminate].
    + unfold released in Hr0. cbn in Hr0.
      apply negb_false_iff, Z.eqb_eq in Hr0. exact Hr0.
    + rewrite E. unfold handling. rewrite Ha, Hc. reflexivity.
Qed.

(** ** Ending a horizontal gesture past the threshold *)

Lemma reachable_horizontal_action (s : State.t Action) :
  reachable s -> State.orientation s = Some Horizontal ->
  exists cb, SwipeHandlerFinishData.callback (State.finishByTopData s) = Some cb.
Proof.
  intros Hr Ho. destruct (tracked_gesture_has_action s Hr) as [H _].
  specialize (H Ho).
  destruct (SwipeHandlerFinishData.callback (State.finishByTopData s)) as [cb|];
    [exists cb; reflexivity|contradiction].
Qed.

(** X10.  Lifting the finger decides by where it was lifted.  When an accepted
    touch event cancels a horizontal gesture and has a first touch point, the
    action is scheduled (once) exactly when start position minus that point,
    over the threshold, is [>= 1]; the live delta of the state plays no part. *)
Theorem touch_release_uses_last_position (c : Z) (type : TouchType)
  (device : option TouchDevice) (p : TouchPoint.t) (rest : list TouchPoint.t)
  (s : State.t Action) :
  reachable s ->
  State.orientation s = Some Horizontal ->
  IsMac = true \/ device = Some TouchScreen ->
  touchCancel type (isTouchScreen device) (p :: rest) = true ->
  exists cb : Action,
    SwipeHandlerFinishData.callback (State.finishByTopData s) = Some cb
    /\ postponed (calls (filter c (Touch type device (p :: rest))) s)
       = if ge ((QPointF.x (State.startAt s) - QPointF.x (TouchPoint.pos p))
                / threshold)%float 1
         then [cb] else [].
Proof.
  intros Hr Ho Hacc Hc.
  destruct (reachable_horizontal_action s Hr Ho) as [cb Hcb].
  exists cb. split; [exact Hcb|].
  destruct (filter_handling c (Touch type device (p :: rest)) s) as [_ E].
  rewrite E. unfold handling.
  assert (Ha : negb IsMac && negb (isTouchScreen device) = false).
  { destruct Hacc as [H|H]; [rewrite H; reflexivity|].
    rewrite H. cbn. apply andb_false_r. }
  rewrite Ha, Hc. cbn [handle]. rewrite processEnd_postponed.
  apply isHorizontal_true in Ho. rewrite Ho, Hcb. cbn [andb].
  unfold finalRatio. cbn [value_or QPointF.sub QPointF.x at_ nth].
  reflexivity.
Qed.


(** ** What an entry point emits *)

Lemma handling_update (e : QEvent) (s : State.t Action) (args : UpdateArgs.t) :
  handling e s = Updates args -> feedsUpdate e = true.
Proof.
  intros H. destruct (feedsUpdate e) eqn:Hf; [reflexivity|].
  destruct (handling_no_update e s Hf) as [E|[delta E]]; congruence.
Qed.

Lemma processEnd_reachFeedback (delta : option QPointF.t) (s : State.t Action) :
  reachFeedback (calls (processEnd delta) s) = [].
Proof.
  unfold calls. destruct (isHorizontal (State.orientation s)) eqn:H.
  - rewrite (processEnd_horizontal_eq delta s H). cbn [snd].
    rewrite reachFeedback_app.
    destruct (ge (finalRatio delta s) 1);
      [destruct (SwipeHandlerFinishData.callback (State.finishByTopData s))|];
      reflexivity.
  - rewrite (processEnd_not_horizontal_eq delta s H). reflexivity.
Qed.

Lemma updateWith_reachFeedback (c : Z) (args : UpdateArgs.t) (s : State.t Action) :
  reachFeedback (calls (updateWith c args) s) <> [] ->
  State.started s = true
  /\ State.orientation s = Some Horizontal
  /\ State.reached s = false
  /\ ge (ratioOf args) 1 = true
  /\ State.reached (final (updateWith c args) s) = true
  /\ reachFeedback (calls (updateWith c args) s) = bounce.
Proof.
  unfold final, calls. destruct (firstSample s args) eqn:Hf.
  - rewrite (updateWith_first_eq _ _ _ Hf).
    destruct (isSet _); cbn; intros H; contradiction H; reflexivity.
  - pose proof Hf as Hf'. apply firstSample_false in Hf'.
    destruct Hf' as [Hs _].
    destruct (State.orientation s) as [[|]|] eqn:Ho.
    + rewrite (updateWith_horizontal_eq _ _ _ Hf Ho). cbn zeta.
      destruct (State.reached s) eqn:Hr; cbn [negb andb].
      * destruct (lt (ratioOf args) kResetReachedOn); cbn;
          intros H; contradiction H; reflexivity.
      * destruct (ge (ratioOf args) 1) eqn:Hge; cbn.
        -- intros _. repeat split. exact Hs.
        -- intros H; contradiction H; reflexivity.
    + rewrite (updateWith_vertical_eq _ _ _ Hf Ho). cbn.
      intros H; contradiction H; reflexivity.
    + rewrite (updateWith_undetermined_eq _ _ _ Hf Ho). cbn.
      intros H; contradiction H; reflexivity.
Qed.

(** X12.  The reach animation and the haptic cue belong to horizontal
    tracking only.  Whatever the entry point and the state, if it starts the
    reach animation or fires the haptic cue, then it is an event that feeds an
    update, a gesture was in progress with horizontal orientation and with
    [reached] false, and afterwards [reached] is true; the feedback is one
    start (from 0 to 1, 500 ms) followed by one haptic call. *)
Theorem reach_feedback_only_when_horizontal (en : Entry) (s : State.t Action) :
  reachFeedback (calls (run en) s) <> [] ->
  isUpdateEntry en = true
  /\ State.started s = true
  /\ State.orientation s = Some Horizontal
  /\ State.reached s = false
  /\ State.reached (final (run en) s) = true
  /\ reachFeedback (calls (run en) s)
     = [Call.animationReach_start 0 1 500; Call.Haptic].
Proof.
  destruct en as [c e| |h|h v].
  - destruct (run_event_eq c e s) as [Hf Hc]. rewrite Hf, Hc.
    destruct (handling e s) as [|delta|args] eqn:Hh; cbn [handle].
    + intros H. contradiction H. reflexivity.
    + rewrite processEnd_reachFeedback. intros H. contradiction H. reflexivity.
    + intros H.
      destruct (updateWith_reachFeedback c args s H)
        as (Hs & Ho & Hr & _ & Hr' & Hfb).
      split; [exact (handling_update e s args Hh)|].
      repeat split; assumption.
  - destruct (run_scroll_eq s) as [_ Hc]. rewrite Hc.
    rewrite processEnd_reachFeedback. intros H. contradiction H. reflexivity.
  - intros H. contradiction H. reflexivity.
  - intros H. contradiction H. reflexivity.
Qed.

(** X13.  Update notifications.  An entry point emits at most one
    notification; it carries the message id of the gesture's finish data and
    the gesture's cursor top; and an event emits one only as an update sample
    of a gesture in progress that is tracked horizontally. *)
Theorem update_notifications_belong_to_the_gesture (en : Entry)
  (s : State.t Action) :
  (length (updates (calls (run en) s)) <= 1)%nat
  /\ Forall (fun d =>
               ChatPaintGestureHorizontalData.msgBareId d
               = SwipeHandlerFinishData.msgBareId (State.finishByTopData s)
               /\ ChatPaintGestureHorizontalData.cursorTop d = State.cursorTop s)
            (updates (calls (run en) s))
  /\ (forall c e, en = OnEvent c e ->
      updates (calls (run en) s) <> [] ->
      feedsUpdate e = true
      /\ State.started s = true
      /\ State.orientation s = Some Horizontal).
Proof.
  destruct en as [c e| |h|h v].
  - destruct (run_event_eq c e s) as [_ Hc]. rewrite Hc.
    destruct (handling e s) as [|delta|args] eqn:Hh; cbn [handle].
    + split; [cbn; lia|]. split; [constructor|].
      intros c' e' _ H. contradiction H. reflexivity.
    + destruct (processEnd_keeps delta s) as (_ & _ & _ & _ & _ & Hu & _).
      rewrite Hu. split; [cbn; lia|]. split; [constructor|].
      intros c' e' _ H. contradiction H. reflexivity.
    + rewrite updateWith_updates.
      destruct (firstSample s args) eqn:Hf; cbn [negb andb].
      * split; [cbn; lia|]. split; [constructor|].
        intros c' e' _ H. contradiction H. reflexivity.
      * destruct (State.orientation s) as [[|]|] eqn:Ho; cbn [isHorizontal].
        -- split; [cbn; lia|]. split; [constructor; [|constructor]|].
           ++ split; reflexivity.
           ++ intros c' e' Een _. injection Een as _ <-.
              apply firstSample_false in Hf. destruct Hf as [Hs _].
              split; [exact (handling_update e s args Hh)|].
              split; [exact Hs|reflexivity].
        -- split; [cbn; lia|]. split; [constructor|].
           intros c' e' _ H. contradiction H. reflexivity.
        -- split; [cbn; lia|]. split; [constructor|].
           intros c' e' _ H. contradiction H. reflexivity.
  - destruct (run_scroll_eq s) as [_ Hc]. rewrite Hc.
    destruct (processEnd_keeps None s) as (_ & _ & _ & _ & _ & Hu & _).
    rewrite Hu. split; [cbn; lia|]. split; [constructor|].
    intros c' e' H. discriminate H.
  - split; [cbn; lia|]. split; [constructor; [split; reflexivity|constructor]|].
    intros c' e' H. discriminate H.
  - split; [cbn; lia|]. split; [constructor; [split; reflexivity|constructor]|].
    intros c' e' H. discriminate H.
Qed.

End SetupSwipeHandler.

(** ** The closures in the scenario's setting (off macOS) *)

Module Demo.
Abbreviation processEnd :=
  (@processEnd Scenario.Action Scenario.noScale Scenario.slideWrapDuration).
Abbreviation updateWith :=
  (@updateWith Scenario.Action Scenario.resolver Scenario.noScale
     Scenario.std_round).
Abbreviation updateWithAll :=
  (@updateWithAll Scenario.Action Scenario.resolver Scenario.noScale
     Scenario.std_round).
Abbreviation updateRatio :=
  (@updateRatio Scenario.Action Scenario.noScale Scenario.std_round).
Abbreviation filter :=
  (@filter Scenario.Action Scenario.resolver Scenario.noScale
     Scenario.slideWrapDuration Scenario.std_round false
     Scenario.startDragDistance).
Abbreviation filterAll :=
  (@filterAll Scenario.Action Scenario.resolver Scenario.noScale
     Scenario.slideWrapDuration Scenario.std_round false
     Scenario.startDragDistance).
Abbreviation reachable :=
  (@reachable Scenario.Action Scenario.resolver Scenario.noScale
     Scenario.slideWrapDuration Scenario.std_round false
     Scenario.startDragDistance).
Abbreviation run :=
  (@run Scenario.Action Scenario.resolver Scenario.noScale
     Scenario.slideWrapDuration Scenario.std_round false
     Scenario.startDragDistance).
Abbreviation runAll :=
  (@runAll Scenario.Action Scenario.resolver Scenario.noScale
     Scenario.slideWrapDuration Scenario.std_round false
     Scenario.startDragDistance).
End Demo.

(** ** The scenario's states are reached by wheel events *)

Lemma tracking_undetermined_reachable :
  final (Demo.filterAll [(10%Z, Scenario.wheelBegan)]) State.initial
  = Scenario.tracking None false 0 0
  /\ Demo.reachable (Scenario.tracking None false 0 0).
Proof.
  assert (E : final (Demo.filterAll [(10%Z, Scenario.wheelBegan)]) State.initial
              = Scenario.tracking None false 0 0) by reflexivity.
  split; [exact E|]. rewrite <- E.
  apply reachable_filterAll. apply reachable_initial.
Qed.

Lemma tracking_horizontal_reachable :
  final (Demo.filterAll [(10%Z, Scenario.wheelBegan);
                         (10%Z, Scenario.wheelBy (-10) 0);
                         (10%Z, Scenario.wheelBy (-20) 0)]) State.initial
  = Scenario.tracking (Some Horizontal) false 30 0
  /\ Demo.reachable (Scenario.tracking (Some Horizontal) false 30 0).
Proof.
  assert (E : final (Demo.filterAll [(10%Z, Scenario.wheelBegan);
                                     (10%Z, Scenario.wheelBy (-10) 0);
                                     (10%Z, Scenario.wheelBy (-20) 0)]) State.initial
              = Scenario.tracking (Some Horizontal) false 30 0) by reflexivity.
  split; [exact E|]. rewrite <- E.
  apply reachable_filterAll. apply reachable_initial.
Qed.

Lemma tracking_vertical_reachable :
  final (Demo.filterAll [(10%Z, Scenario.wheelBegan);
                         (10%Z, Scenario.wheelBy (-2) (-40))]) State.initial
  = Scenario.tracking (Some Vertical) false 2 40
  /\ Demo.reachable (Scenario.tracking (Some Vertical) false 2 40).
Proof.
  assert (E : final (Demo.filterAll [(10%Z, Scenario.wheelBegan);
                                     (10%Z, Scenario.wheelBy (-2) (-40))])
                State.initial
              = Scenario.tracking (Some Vertical) false 2 40) by reflexivity.
  split; [exact E|]. rewrite <- E.
  apply reachable_filterAll. apply reachable_initial.
Qed.

(** ** The theorems at concrete inputs *)

Lemma processEnd_schedules_action_witness :
  State.orientation (Scenario.tracking (Some Horizontal) true 55 0) = Some Horizontal
  /\ ge (finalRatio Scenario.noScale None
           (Scenario.tracking (Some Horizontal) true 55 0)) 1 = true
  /\ postponed (calls (Demo.processEnd None)
                  (Scenario.tracking (Some Horizontal) true 55 0)) = [Scenario.A].
Proof.
  split; [reflexivity|]. split; [reflexivity|].
  apply (proj1 (processEnd_schedules_action
                  Scenario.noScale Scenario.slideWrapDuration None
                  (Scenario.tracking (Some Horizontal) true 55 0))
               eq_refl Scenario.A).
  split; reflexivity.
Defined.

Lemma updateWith_classifies_witness :
  gt (diffXtoY (Scenario.sample 10 3 false)) 1 = true
  /\ State.orientation
       (final (Demo.updateWith 10 (Scenario.sample 10 3 false))
          (Scenario.tracking None false 0 0)) = Some Horizontal
  /\ le (-1) (diffXtoY (Scenario.sample 4 3.5 false)) = true
  /\ le (diffXtoY (Scenario.sample 4 3.5 false)) 1 = true
  /\ calls (Demo.updateWith 10 (Scenario.sample 4 3.5 false))
       (Scenario.tracking None false 0 0)
     = [Call.setAcceptTouchEvents true; Call.disableScroll false].
Proof.
  split; [reflexivity|]. split.
  - apply (proj1 (updateWith_classifies
                    Scenario.resolver Scenario.noScale Scenario.std_round 10
                    (Scenario.sample 10 3 false) (Scenario.tracking None false 0 0)
                    eq_refl eq_refl eq_refl)).
    reflexivity.
  - split; [reflexivity|]. split; [reflexivity|].
    apply (proj2 (proj2 (updateWith_classifies
                    Scenario.resolver Scenario.noScale Scenario.std_round 10
                    (Scenario.sample 4 3.5 false) (Scenario.tracking None false 0 0)
                    eq_refl eq_refl eq_refl)));
      reflexivity.
Defined.

Lemma reached_hysteresis_witness :
  le 0.95 (ratioOf Scenario.noScale (Scenario.sample 48 0 false)) = true
  /\ State.reached
       (final (Demo.updateWith 10 (Scenario.sample 48 0 false))
          (Scenario.tracking (Some Horizontal) true 55 0)) = true.
Proof.
  split; [reflexivity|].
  apply (proj2 (proj2 (reached_hysteresis
                  Scenario.resolver Scenario.noScale Scenario.std_round 10
                  (Scenario.sample 48 0 false)
                  (Scenario.tracking (Some Horizontal) true 55 0))));
    reflexivity.
Defined.

Lemma reach_animation_once_per_crossing_witness :
  reachFeedback
    (calls (Demo.updateWithAll
              [(10%Z, Scenario.sample 55 0 false);
               (10%Z, Scenario.sample 70 0 false);
               (10%Z, Scenario.sample 49 0 false);
               (10%Z, Scenario.sample 56 0 false)])
       (Scenario.tracking (Some Horizontal) false 30 0))
  = [Call.animationReach_start 0 1 500; Call.Haptic].
Proof.
  apply (proj2 (proj2 (reach_animation_once_per_crossing
                  Scenario.resolver Scenario.noScale Scenario.std_round
                  [(10%Z, Scenario.sample 55 0 false);
                   (10%Z, Scenario.sample 70 0 false);
                   (10%Z, Scenario.sample 49 0 false);
                   (10%Z, Scenario.sample 56 0 false)]
                  (Scenario.tracking (Some Horizontal) false 30 0)
                  eq_refl eq_refl
                  ltac:(repeat constructor))));
    repeat constructor.
Defined.

Lemma processEnd_ends_gesture_witness :
  animationCalls (calls (Demo.processEnd None)
                    (Scenario.tracking (Some Horizontal) true 100 0))
  = [Call.animationReach_stop; Call.animationEnd_stop;
     Call.animationEnd_start 2 0 200].
Proof.
  apply (proj1 (proj2 (processEnd_ends_gesture
                  Scenario.noScale Scenario.slideWrapDuration None
                  (Scenario.tracking (Some Horizontal) true 100 0)))).
  reflexivity.
Defined.

Lemma update_notification_clamped_witness :
  (exists d,
     calls (Demo.updateRatio 2) (Scenario.tracking (Some Horizontal) true 100 0)
     = [Call.update d]
     /\ ChatPaintGestureHorizontalData.ratio d = 1.5%float
     /\ ChatPaintGestureHorizontalData.translation d = (-75)%Z
     /\ le 0 (ChatPaintGestureHorizontalData.ratio d) = true
     /\ le (ChatPaintGestureHorizontalData.ratio d) 1.5 = true)
  /\ In (Call.animationEnd_start 2 0 200)
        (calls (Demo.processEnd None)
           (Scenario.tracking (Some Horizontal) true 100 0))
  /\ Forall (clampedFrom Scenario.noScale Scenario.std_round 2)
        (updates
           (calls (Demo.run (OnEvent 10 (Scenario.wheelBy (-70) 0)))
              (Scenario.tracking (Some Horizontal) false 30 0))).
Proof.
  split; [|split].
  - destruct (proj1 (update_notification_clamped
                       Scenario.resolver Scenario.noScale
                       Scenario.slideWrapDuration Scenario.std_round false
                       Scenario.startDragDistance)
                    2%float (Scenario.tracking (Some Horizontal) true 100 0))
      as (d & Hcalls & Hratio & Htranslation & Hbounds).
    exists d. split; [exact Hcalls|]. split; [exact Hratio|].
    split; [exact Htranslation|]. exact (Hbounds eq_refl).
  - exact (proj2 (proj2 (proj2 (proj2 (proj2 (update_notification_clamped
                       Scenario.resolver Scenario.noScale
                       Scenario.slideWrapDuration Scenario.std_round false
                       Scenario.startDragDistance)))))
                 None (Scenario.tracking (Some Horizontal) true 100 0) eq_refl).
  - exact (proj1 (proj2 (update_notification_clamped
                       Scenario.resolver Scenario.noScale
                       Scenario.slideWrapDuration Scenario.std_round false
                       Scenario.startDragDistance))
                 (OnEvent 10 (Scenario.wheelBy (-70) 0))
                 (Scenario.tracking (Some Horizontal) false 30 0)).
Defined.

Lemma first_update_starts_gesture_witness :
  State.orientation
    (final (Demo.updateWith 10 (Scenario.sample 0 0 true)) State.initial) = None
  /\ State.orientation
       (final (Demo.updateWith 150 (Scenario.sample 0 0 true))
          (Scenario.tracking (Some Horizontal) false 30 0)) = Some Vertical
  /\ State.orientation
       (final (Demo.updateWith 10 (Scenario.sample 0 0 true))
          (Scenario.tracking None false 0 0)) = None
  /\ resolverCalls
       (calls (Demo.updateWithAll
                 [(10%Z, Scenario.sample 0 0 true);
                  (12%Z, Scenario.sample 10 0 true);
                  (12%Z, Scenario.sample 30 0 true)])
          State.initial) = [10%Z].
Proof.
  pose proof (first_update_starts_gesture
                Scenario.resolver Scenario.noScale Scenario.slideWrapDuration
                Scenario.std_round false Scenario.startDragDistance
                10 (Scenario.sample 0 0 true)
                [(12%Z, Scenario.sample 10 0 true);
                 (12%Z, Scenario.sample 30 0 true)]
                State.initial
                (reachable_initial _ _ _ _ _ _)
                (or_introl eq_refl)
                ltac:(repeat constructor)) as H.
  split; [|split; [|split]].
  - apply (proj1 (proj2 (proj2 (proj2 (proj2 (proj2 H))))));
      [discriminate|reflexivity].
  - assert (Hchange : State.touch (Scenario.tracking (Some Horizontal) false 30 0)
                      <> UpdateArgs.touch (Scenario.sample 0 0 true))
      by (cbn; discriminate).
    apply (proj1 (proj2 (proj2 (proj2 (proj2
             (first_update_starts_gesture
                Scenario.resolver Scenario.noScale Scenario.slideWrapDuration
                Scenario.std_round false Scenario.startDragDistance
                150 (Scenario.sample 0 0 true) []
                (Scenario.tracking (Some Horizontal) false 30 0)
                (proj2 tracking_horizontal_reachable)
                (or_intror Hchange)
                (Forall_nil _))))))).
    reflexivity.
  - assert (Hchange : State.touch (Scenario.tracking None false 0 0)
                      <> UpdateArgs.touch (Scenario.sample 0 0 true))
      by (cbn; discriminate).
    apply (proj1 (proj2 (proj2 (proj2 (proj2 (proj2 (proj2
             (first_update_starts_gesture
                Scenario.resolver Scenario.noScale Scenario.slideWrapDuration
                Scenario.std_round false Scenario.startDragDistance
                10 (Scenario.sample 0 0 true) []
                (Scenario.tracking None false 0 0)
                (proj2 tracking_undetermined_reachable)
                (or_intror Hchange)
                (Forall_nil _))))))))); [discriminate|reflexivity].
  - exact (proj1 (proj2 (proj2 H))).
Defined.

Lemma wheel_cancel_ends_gesture_witness :
  Demo.filter 10 Scenario.wheelMomentum (Scenario.tracking (Some Horizontal) false 30 0)
  = (Continue,
     final (Demo.processEnd None) (Scenario.tracking (Some Horizontal) false 30 0),
     calls (Demo.processEnd None) (Scenario.tracking (Some Horizontal) false 30 0)).
Proof.
  exact (proj1 (wheel_cancel_ends_gesture
                  Scenario.resolver Scenario.noScale Scenario.slideWrapDuration
                  Scenario.std_round false Scenario.startDragDistance
                  10 ScrollMomentum 0 (QPointF.make (-4) 0)
                  (Scenario.tracking (Some Horizontal) false 30 0)
                  (or_intror (or_intror eq_refl)))).
Defined.

Lemma processEnd_not_horizontal_witness :
  calls (Demo.processEnd None) (Scenario.tracking (Some Vertical) false 2 40)
  = [Call.setAcceptTouchEvents true; Call.disableScroll false].
Proof.
  apply (processEnd_not_horizontal
           Scenario.noScale Scenario.slideWrapDuration None
           (Scenario.tracking (Some Vertical) false 2 40)).
  discriminate.
Defined.

(** ** Where the code departs from the specification *)

(** C2: in the state a first wheel event leaves
    ([tracking_undetermined_reachable]), a sample with [diff] in [[-1, 1]] (here
    [|4| - |3.5| = 0.5]) leaves the orientation unset, but the scroll
    collaborator is called: [setOrientation(std::nullopt)] sets the touch
    acceptance and calls [disableScroll]. *)
Lemma undetermined_sample_calls_scroll_area :
  State.started (Scenario.tracking None false 0 0) = true
  /\ State.orientation (Scenario.tracking None false 0 0) = None
  /\ le (-1) (diffXtoY (Scenario.sample 4 3.5 false)) = true
  /\ le (diffXtoY (Scenario.sample 4 3.5 false)) 1 = true
  /\ State.orientation
       (final (Demo.updateWith 10 (Scenario.sample 4 3.5 false))
          (Scenario.tracking None false 0 0)) = None
  /\ scrollCalls
       (calls (Demo.updateWith 10 (Scenario.sample 4 3.5 false))
          (Scenario.tracking None false 0 0))
     = [Call.setAcceptTouchEvents true; Call.disableScroll false]
  /\ scrollCalls
       (calls (Demo.updateWith 10 (Scenario.sample 4 3.5 false))
          (Scenario.tracking None false 0 0)) <> [].
Proof.
  repeat split; try reflexivity. vm_compute. discriminate.
Qed.

(** C5: [processEnd] on a gesture classified as vertical
    ([tracking_vertical_reachable]) stops and starts no animation; the end
    animation stays idle. *)
Lemma processEnd_vertical_starts_no_animation :
  animationCalls
    (calls (Demo.processEnd None) (Scenario.tracking (Some Vertical) false 2 40))
  = []
  /\ State.animationEnd
       (final (Demo.processEnd None) (Scenario.tracking (Some Vertical) false 2 40))
     = Simple.idle
  /\ calls (Demo.processEnd None) (Scenario.tracking (Some Vertical) false 2 40)
     = [Call.setAcceptTouchEvents true; Call.disableScroll false].
Proof.
  split; [reflexivity|]. split; reflexivity.
Qed.

(** C6: a horizontal wheel gesture is ended at [delta = (100, 0)]: the end
    animation starts from 2 and [processEnd] keeps the delta.  A tick of the end
    animation at the animated value 0.25 calls [updateRatio(0.25)], so the
    notification's ratio is 0.25, while [delta.x / threshold] clamps to 1.5. *)
Lemma end_tick_carries_animated_value :
  Demo.reachable
    (final (Demo.filterAll [(10%Z, Scenario.wheelBegan);
                            (10%Z, Scenario.wheelBy (-10) 0);
                            (10%Z, Scenario.wheelBy (-90) 0);
                            (10%Z, Scenario.wheelMomentum)])
       State.initial)
  /\ State.delta
       (final (Demo.filterAll [(10%Z, Scenario.wheelBegan);
                               (10%Z, Scenario.wheelBy (-10) 0);
                               (10%Z, Scenario.wheelBy (-90) 0);
                               (10%Z, Scenario.wheelMomentum)])
          State.initial) = QPointF.make 100 0
  /\ State.animationEnd
       (final (Demo.filterAll [(10%Z, Scenario.wheelBegan);
                               (10%Z, Scenario.wheelBy (-10) 0);
                               (10%Z, Scenario.wheelBy (-90) 0);
                               (10%Z, Scenario.wheelMomentum)])
          State.initial) = Some (Simple.make 2 0 200 2)
  /\ map ChatPaintGestureHorizontalData.ratio
       (updates
          (calls (Demo.run (OnEndTick (Some (Simple.make 2 0 200 0.25)) 0.25))
             (final (Demo.filterAll [(10%Z, Scenario.wheelBegan);
                                     (10%Z, Scenario.wheelBy (-10) 0);
                                     (10%Z, Scenario.wheelBy (-90) 0);
                                     (10%Z, Scenario.wheelMomentum)])
                State.initial)))
     = [0.25%float]
  /\ clamp (QPointF.x (QPointF.make 100 0) / threshold Scenario.noScale) 0 1.5
     = 1.5%float
  /\ 0.25%float <> 1.5%float.
Proof.
  split; [apply reachable_filterAll; apply reachable_initial|].
  repeat split; try reflexivity.
  intros H. apply (f_equal (fun v => PrimFloat.ltb v 1)) in H.
  vm_compute in H. discriminate H.
Qed.

(** C7: a touch gesture is being tracked horizontally when a wheel update
    arrives.  The source type changes, so the first branch of [updateWith] runs
    (the resolver is queried a second time) and the resolver yields an action;
    the orientation is still horizontal afterwards, not undetermined. *)
Lemma source_change_keeps_orientation :
  State.orientation
    (final (Demo.filterAll [(10%Z, Scenario.fingerDown); (10%Z, Scenario.fingerMoved)])
       State.initial) = Some Horizontal
  /\ State.touch
       (final (Demo.filterAll [(10%Z, Scenario.fingerDown); (10%Z, Scenario.fingerMoved)])
          State.initial) = true
  /\ resolverCalls
       (calls (Demo.filterAll
                 [(10%Z, Scenario.fingerDown); (10%Z, Scenario.fingerMoved);
                  (20%Z, Scenario.wheelScrolled)])
          State.initial) = [10%Z; 20%Z]
  /\ SwipeHandlerFinishData.callback (Scenario.resolver 20) = Some Scenario.A
  /\ State.orientation
       (final (Demo.filterAll
                 [(10%Z, Scenario.fingerDown); (10%Z, Scenario.fingerMoved);
                  (20%Z, Scenario.wheelScrolled)])
          State.initial) = Some Horizontal
  /\ State.orientation
       (final (Demo.filterAll
                 [(10%Z, Scenario.fingerDown); (10%Z, Scenario.fingerMoved);
                  (20%Z, Scenario.wheelScrolled)])
          State.initial) <> None.
Proof.
  repeat split; try reflexivity. vm_compute. discriminate.
Qed.

(** C8: off macOS, a momentum-phase wheel event during a horizontal wheel
    gesture ([tracking_horizontal_reachable]) is not ignored: the gesture is
    ended and the state changes. *)
Lemma wheel_momentum_changes_state :
  final (Demo.filter 10 Scenario.wheelMomentum)
    (Scenario.tracking (Some Horizontal) false 30 0)
  <> Scenario.tracking (Some Horizontal) false 30 0
  /\ State.started
       (final (Demo.filter 10 Scenario.wheelMomentum)
          (Scenario.tracking (Some Horizontal) false 30 0)) = false
  /\ State.orientation
       (final (Demo.filter 10 Scenario.wheelMomentum)
          (Scenario.tracking (Some Horizontal) false 30 0)) = None
  /\ calls (Demo.filter 10 Scenario.wheelMomentum)
       (Scenario.tracking (Some Horizontal) false 30 0)
     = [Call.animationReach_stop; Call.animationEnd_stop;
        Call.animationEnd_start 0.6 0 200;
        Call.setAcceptTouchEvents true; Call.disableScroll false].
Proof.
  split; [|repeat split; reflexivity].
  intros H. apply (f_equal State.started) in H. vm_compute in H. discriminate H.
Qed.

(** ** The further properties at concrete inputs *)

Lemma idle_state_is_clean_witness :
  State.reached
    (final (Demo.filterAll [(10%Z, Scenario.wheelBegan);
                            (10%Z, Scenario.wheelBy (-10) 0);
                            (10%Z, Scenario.wheelBy (-50) 0)])
       State.initial) = true
  /\ State.started
       (final (Demo.filterAll [(10%Z, Scenario.wheelBegan);
                               (10%Z, Scenario.wheelBy (-10) 0);
                               (10%Z, Scenario.wheelBy (-50) 0);
                               (10%Z, Scenario.wheelMomentum)])
          State.initial) = false
  /\ State.orientation
       (final (Demo.filterAll [(10%Z, Scenario.wheelBegan);
                               (10%Z, Scenario.wheelBy (-10) 0);
                               (10%Z, Scenario.wheelBy (-50) 0);
                               (10%Z, Scenario.wheelMomentum)])
          State.initial) = None
  /\ State.reached
       (final (Demo.filterAll [(10%Z, Scenario.wheelBegan);
                               (10%Z, Scenario.wheelBy (-10) 0);
                               (10%Z, Scenario.wheelBy (-50) 0);
                               (10%Z, Scenario.wheelMomentum)])
          State.initial) = false.
Proof.
  split; [reflexivity|]. split; [reflexivity|].
  exact (idle_state_is_clean
           Scenario.resolver Scenario.noScale Scenario.slideWrapDuration
           Scenario.std_round false Scenario.startDragDistance
           (final (Demo.filterAll [(10%Z, Scenario.wheelBegan);
                                   (10%Z, Scenario.wheelBy (-10) 0);
                                   (10%Z, Scenario.wheelBy (-50) 0);
                                   (10%Z, Scenario.wheelMomentum)])
              State.initial)
           (reachable_filterAll _ _ _ _ _ _ _ _ (reachable_initial _ _ _ _ _ _))
           eq_refl).
Defined.

Lemma horizontal_gesture_has_action_witness :
  exists cb,
    SwipeHandlerFinishData.callback
      (State.finishByTopData (Scenario.tracking (Some Horizontal) false 30 0))
    = Some cb
    /\ postponed (calls (Demo.processEnd (Some (QPointF.make 60 0)))
                    (Scenario.tracking (Some Horizontal) false 30 0)) = [cb].
Proof.
  destruct (horizontal_gesture_has_action
              Scenario.resolver Scenario.noScale Scenario.slideWrapDuration
              Scenario.std_round false Scenario.startDragDistance
              (Scenario.tracking (Some Horizontal) false 30 0)
              (proj2 tracking_horizontal_reachable) eq_refl)
    as (cb & Hcb & Hpost).
  exists cb. split; [exact Hcb|].
  apply (Hpost (Some (QPointF.make 60 0))). reflexivity.
Defined.

Lemma no_action_without_update_witness :
  postponed
    (calls (Demo.runAll [OnEvent 10 Leave; OnScroll;
                         OnEvent 10 Scenario.wheelMomentum;
                         OnReachTick Simple.idle])
       (Scenario.tracking (Some Vertical) false 2 40)) = []
  /\ animationCalls
       (calls (Demo.runAll [OnEvent 10 Leave; OnScroll;
                            OnEvent 10 Scenario.wheelMomentum;
                            OnReachTick Simple.idle])
          (Scenario.tracking (Some Vertical) false 2 40)) = []
  /\ State.orientation
       (final (Demo.runAll [OnEvent 10 Leave; OnScroll;
                            OnEvent 10 Scenario.wheelMomentum;
                            OnReachTick Simple.idle])
          (Scenario.tracking (Some Vertical) false 2 40)) <> Some Horizontal.
Proof.
  assert (Ho : State.orientation (Scenario.tracking (Some Vertical) false 2 40)
               <> Some Horizontal) by (cbn; discriminate).
  apply (no_action_without_update
           Scenario.resolver Scenario.noScale Scenario.slideWrapDuration
           Scenario.std_round false Scenario.startDragDistance
           [OnEvent 10 Leave; OnScroll; OnEvent 10 Scenario.wheelMomentum;
            OnReachTick Simple.idle]
           (Scenario.tracking (Some Vertical) false 2 40) Ho).
  repeat constructor.
Defined.

Lemma orientation_decided_once_witness :
  State.orientation
    (final (Demo.updateWithAll [(10%Z, Scenario.sample 55 0 false);
                                (40%Z, Scenario.sample 10 80 false)])
       (Scenario.tracking (Some Horizontal) false 30 0)) = Some Horizontal
  /\ State.cursorTop
       (final (Demo.updateWithAll [(10%Z, Scenario.sample 55 0 false);
                                   (40%Z, Scenario.sample 10 80 false)])
          (Scenario.tracking (Some Horizontal) false 30 0)) = 10%Z.
Proof.
  pose proof (orientation_decided_once
                Scenario.resolver Scenario.noScale Scenario.std_round
                [(10%Z, Scenario.sample 55 0 false);
                 (40%Z, Scenario.sample 10 80 false)]
                (Scenario.tracking (Some Horizontal) false 30 0)
                eq_refl ltac:(repeat constructor)) as H.
  split.
  - exact (proj2 (proj2 (proj2 (proj2 (proj2 H)))) Horizontal eq_refl).
  - exact (proj1 (proj2 (proj2 (proj2 H)))).
Defined.

Lemma gesture_without_action_is_inert_witness :
  SwipeHandlerFinishData.callback (Scenario.resolver 150) = None
  /\ calls (Demo.updateWithAll [(150%Z, Scenario.sample 0 0 true);
                                (150%Z, Scenario.sample 60 0 true);
                                (150%Z, Scenario.sample 80 0 true)])
       State.initial
     = [Call.generateFinishByTop_called 150;
        Call.setAcceptTouchEvents true; Call.disableScroll false].
Proof.
  split; [reflexivity|].
  exact (proj1 (gesture_without_action_is_inert
                  Scenario.resolver Scenario.noScale Scenario.std_round
                  150 (Scenario.sample 0 0 true)
                  [(150%Z, Scenario.sample 60 0 true);
                   (150%Z, Scenario.sample 80 0 true)]
                  State.initial (or_introl eq_refl) eq_refl
                  ltac:(repeat constructor))).
Defined.

Lemma wheel_update_accumulates_witness :
  State.delta
    (final (Demo.filter 10 (Scenario.wheelBy (-25) 0))
       (Scenario.tracking (Some Horizontal) false 30 0))
  = QPointF.make 55 0
  /\ State.delta
       (final (Demo.filter 10 (Scenario.wheelBy (-25) 0)) State.initial)
     = QPointF.null.
Proof.
  pose proof (wheel_update_accumulates
                Scenario.resolver Scenario.noScale Scenario.slideWrapDuration
                Scenario.std_round false Scenario.startDragDistance
                10 ScrollUpdate 0 (QPointF.make (-25) 0)) as H.
  split.
  - assert (Hv : State.orientation (Scenario.tracking (Some Horizontal) false 30 0)
                 <> Some Vertical) by (cbn; discriminate).
    assert (Hp : ScrollUpdate <> NoScrollPhase) by discriminate.
    exact (proj1 (proj2 (H (Scenario.tracking (Some Horizontal) false 30 0)
                           eq_refl Hp eq_refl))
                 eq_refl eq_refl Hv).
  - assert (Hp : ScrollUpdate <> NoScrollPhase) by discriminate.
    exact (proj1 (proj1 (H State.initial eq_refl Hp eq_refl)
                        (or_introl eq_refl))).
Defined.

Lemma touch_event_handling_witness :
  Demo.filter 10 (Touch TouchUpdate (Some TouchScreen) [])
    (Scenario.tracking (Some Horizontal) false 30 0)
  = (Cancel,
     final (Demo.processEnd None) (Scenario.tracking (Some Horizontal) false 30 0),
     calls (Demo.processEnd None) (Scenario.tracking (Some Horizontal) false 30 0))
  /\ exists p rest, [TouchPoint.make (QPointF.make 90 0) 2] = p :: rest
                    /\ rest = [].
Proof.
  pose proof (touch_event_handling
                Scenario.resolver Scenario.noScale Scenario.slideWrapDuration
                Scenario.std_round false Scenario.startDragDistance
                10 TouchUpdate (Some TouchScreen)) as H.
  split.
  - exact (proj1 (H [] (Scenario.tracking (Some Horizontal) false 30 0)
                    (or_intror eq_refl)) eq_refl).
  - destruct (proj2 (proj2 (H [TouchPoint.make (QPointF.make 90 0) 2]
                              State.initial (or_intror eq_refl))) eq_refl)
      as (p & rest & E & _ & Hrest & _).
    exists p, rest. split; [exact E|exact (Hrest eq_refl)].
Defined.

Lemma touch_release_uses_last_position_witness :
  exists cb,
    postponed
      (calls (Demo.filter 10
                (Touch TouchEnd (Some TouchScreen)
                   [TouchPoint.make (QPointF.make 40 0) 8]))
         (final (Demo.filterAll [(10%Z, Scenario.fingerDown);
                                 (10%Z, Scenario.fingerMoved)])
            State.initial)) = [cb].
Proof.
  destruct (touch_release_uses_last_position
              Scenario.resolver Scenario.noScale Scenario.slideWrapDuration
              Scenario.std_round false Scenario.startDragDistance
              10 TouchEnd (Some TouchScreen)
              (TouchPoint.make (QPointF.make 40 0) 8) []
              (final (Demo.filterAll [(10%Z, Scenario.fingerDown);
                                      (10%Z, Scenario.fingerMoved)])
                 State.initial)
              (reachable_filterAll _ _ _ _ _ _ _ _ (reachable_initial _ _ _ _ _ _))
              eq_refl (or_intror eq_refl) eq_refl)
    as (cb & _ & H).
  exists cb. exact H.
Defined.


Lemma reach_feedback_only_when_horizontal_witness :
  State.reached
    (final (Demo.run (OnEvent 10 (Scenario.wheelBy (-30) 0)))
       (Scenario.tracking (Some Horizontal) false 30 0)) = true
  /\ reachFeedback
       (calls (Demo.run (OnEvent 10 (Scenario.wheelBy (-30) 0)))
          (Scenario.tracking (Some Horizontal) false 30 0))
     = [Call.animationReach_start 0 1 500; Call.Haptic].
Proof.
  assert (Hne : reachFeedback
                  (calls (Demo.run (OnEvent 10 (Scenario.wheelBy (-30) 0)))
                     (Scenario.tracking (Some Horizontal) false 30 0)) <> [])
    by (vm_compute; discriminate).
  pose proof (reach_feedback_only_when_horizontal
                Scenario.resolver Scenario.noScale Scenario.slideWrapDuration
                Scenario.std_round false Scenario.startDragDistance
                (OnEvent 10 (Scenario.wheelBy (-30) 0))
                (Scenario.tracking (Some Horizontal) false 30 0) Hne) as H.
  split.
  - exact (proj1 (proj2 (proj2 (proj2 (proj2 H))))).
  - exact (proj2 (proj2 (proj2 (proj2 (proj2 H))))).
Defined.

Lemma update_notifications_belong_to_the_gesture_witness :
  feedsUpdate false (Scenario.wheelBy (-5) 0) = true
  /\ State.started (Scenario.tracking (Some Horizontal) false 30 0) = true
  /\ State.orientation (Scenario.tracking (Some Horizontal) false 30 0)
     = Some Horizontal.
Proof.
  assert (Hne : updates
                  (calls (Demo.run (OnEvent 10 (Scenario.wheelBy (-5) 0)))
                     (Scenario.tracking (Some Horizontal) false 30 0)) <> [])
    by (vm_compute; discriminate).
  exact (proj2 (proj2 (update_notifications_belong_to_the_gesture
                         Scenario.resolver Scenario.noScale
                         Scenario.slideWrapDuration Scenario.std_round false
                         Scenario.startDragDistance
                         (OnEvent 10 (Scenario.wheelBy (-5) 0))
                         (Scenario.tracking (Some Horizontal) false 30 0)))
               10%Z (Scenario.wheelBy (-5) 0) eq_refl Hne).
Defined.
